(** * timer-core: a shallow embedding of the timer state machine

    The Go package [timer] (onestay/timer-core) implements a stopwatch with
    the states Reset, Running, Paused and Stopped, a ticker-driven loop that
    publishes the elapsed time, and a registry of subtimers.

    The source file of the timer holds two revisions of timer.go; the
    model is the first one, whose methods check the state with
    [checkValidState] and return an [error].

    The embedding follows the source function by function.  A method on
    [*Timer] becomes a computation in the monad [M]: it reads and writes
    the receiver, may spawn goroutines ([go f()]) and may panic (nil
    pointer dereference, [time.NewTicker] with a non-positive period).
    [time.Now()] is an argument of the methods that read the clock. *)

From stdpp Require Import gmap strings list sorting.
From Stdlib Require Import ZArith.

Local Open Scope Z_scope.

(** ** The [time] package, as far as the timer uses it *)

Module time.

(** [time.Duration] is an [int64] count of nanoseconds. *)
Definition Duration : Type := Z.

(** A [time.Time], read as nanoseconds on the clock [time.Now] samples. *)
Definition Time : Type := Z.

Definition Millisecond : Duration := 1000000.
Definition minDuration : Duration := - 2 ^ 63.
Definition maxDuration : Duration := 2 ^ 63 - 1.

(** [int64] arithmetic wraps around. *)
Definition wrap64 (z : Z) : Z := (z + 2 ^ 63) mod 2 ^ 64 - 2 ^ 63.

(** [t.Sub(u)]: the difference, saturated to the range of [Duration]. *)
Definition Sub (t u : Time) : Duration :=
  if t - u <? minDuration then minDuration
  else if maxDuration <? t - u then maxDuration
  else t - u.

(** [t.Add(d)]. *)
Definition Add (t : Time) (d : Duration) : Time := t + d.

(** [time.Since(t)] is [time.Now().Sub(t)]. *)
Definition Since (now t : Time) : Duration := Sub now t.

(** A [*time.Ticker] object: its period and whether it still fires. *)
Record Ticker : Type := mkTicker { period : Duration; firing : bool }.

End time.

Import time.

(** ** Data model (timer.go, subtimer.go) *)

(** [type State int] with its four constants. *)
Inductive State : Type := Reset | Running | Paused | Stopped.

(** [type operation int] with its five constants. *)
Inductive operation : Type := resetOp | startOp | pauseOp | resumeOp | stopOp.

Definition defaultUpdateInterval : Z := 10.
Definition defaultTickerInterval : Z := 10.

#[global] Instance State_eq_dec : EqDecision State.
Proof. solve_decision. Defined.

(** The comparison [a == b] on states. *)
Definition State_eqb (a b : State) : bool :=
  match a, b with
  | Reset, Reset | Running, Running | Paused, Paused | Stopped, Stopped => true
  | _, _ => false
  end.

(** [type subtimer struct { Time time.Duration; state State }]. *)
Record subtimer : Type := mkSubtimer { Time : Duration; state : State }.

(** An [error] value built by [fmt.Errorf]: the format string and its
    arguments.  Go's [nil] error is [None]. *)
Inductive error : Type := Errorf (format : string) (args : list Z).

(** [type Timer struct].  The field [State] of the source is [tState] here
    (the name [State] is the type).  The third switch is
    [stopOnSubtimersFinish], the name subtimer.go reads it by (the struct
    of the modelled revision spells it [stopOnSubtimersStop]).  [ticker]
    and [updateTicker] are pointers: [None] is [nil].  The channel
    [Updates] is not a field of the model: what the loop sends on it is the
    loop's output. *)
Record Timer : Type := mkTimer {
  updateInterval : Z;
  tickerInterval : Z;
  ticker : option Ticker;
  updateTicker : option Ticker;
  tState : State;
  startTime : time.Time;
  elapsed : Duration;
  pauseTime : time.Time;
  subtimers : gmap Z subtimer;
  allowResumeAfterStop : bool;
  continueCountingWhenStopped : bool;
  stopOnSubtimersFinish : bool
}.

(** Field assignments [t.f = v]. *)
Definition set_updateInterval (v : Z) (t : Timer) : Timer :=
  mkTimer v (tickerInterval t) (ticker t) (updateTicker t) (tState t)
    (startTime t) (elapsed t) (pauseTime t) (subtimers t)
    (allowResumeAfterStop t) (continueCountingWhenStopped t)
    (stopOnSubtimersFinish t).

Definition set_ticker (v : option Ticker) (t : Timer) : Timer :=
  mkTimer (updateInterval t) (tickerInterval t) v (updateTicker t) (tState t)
    (startTime t) (elapsed t) (pauseTime t) (subtimers t)
    (allowResumeAfterStop t) (continueCountingWhenStopped t)
    (stopOnSubtimersFinish t).

Definition set_updateTicker (v : option Ticker) (t : Timer) : Timer :=
  mkTimer (updateInterval t) (tickerInterval t) (ticker t) v (tState t)
    (startTime t) (elapsed t) (pauseTime t) (subtimers t)
    (allowResumeAfterStop t) (continueCountingWhenStopped t)
    (stopOnSubtimersFinish t).

Definition set_tState (v : State) (t : Timer) : Timer :=
  mkTimer (updateInterval t) (tickerInterval t) (ticker t) (updateTicker t) v
    (startTime t) (elapsed t) (pauseTime t) (subtimers t)
    (allowResumeAfterStop t) (continueCountingWhenStopped t)
    (stopOnSubtimersFinish t).

Definition set_startTime (v : time.Time) (t : Timer) : Timer :=
  mkTimer (updateInterval t) (tickerInterval t) (ticker t) (updateTicker t)
    (tState t) v (elapsed t) (pauseTime t) (subtimers t)
    (allowResumeAfterStop t) (continueCountingWhenStopped t)
    (stopOnSubtimersFinish t).

Definition set_elapsed (v : Duration) (t : Timer) : Timer :=
  mkTimer (updateInterval t) (tickerInterval t) (ticker t) (updateTicker t)
    (tState t) (startTime t) v (pauseTime t) (subtimers t)
    (allowResumeAfterStop t) (continueCountingWhenStopped t)
    (stopOnSubtimersFinish t).

Definition set_pauseTime (v : time.Time) (t : Timer) : Timer :=
  mkTimer (updateInterval t) (tickerInterval t) (ticker t) (updateTicker t)
    (tState t) (startTime t) (elapsed t) v (subtimers t)
    (allowResumeAfterStop t) (continueCountingWhenStopped t)
    (stopOnSubtimersFinish t).

Definition set_subtimers (v : gmap Z subtimer) (t : Timer) : Timer :=
  mkTimer (updateInterval t) (tickerInterval t) (ticker t) (updateTicker t)
    (tState t) (startTime t) (elapsed t) (pauseTime t) v
    (allowResumeAfterStop t) (continueCountingWhenStopped t)
    (stopOnSubtimersFinish t).

(** ** The monad of methods on [*Timer] *)

(** What a [go] statement of the package starts. *)
Inductive goroutine : Type := go_startSubTimers | go_timerLoop.

(** A call either returns a value, the receiver as the call left it and the
    goroutines it spawned, or it panics. *)
Inductive Res (A : Type) : Type :=
  | Ok (a : A) (t : Timer) (gs : list goroutine)
  | Panic.

Arguments Ok {A} a t gs.
Arguments Panic {A}.

Definition M (A : Type) : Type := Timer → Res A.

#[global] Instance M_ret : MRet M := λ A a t, Ok a t [].

#[global] Instance M_bind : MBind M := λ A B f m t,
  match m t with
  | Ok a t1 gs1 =>
      match f a t1 with
      | Ok b t2 gs2 => Ok b t2 (gs1 ++ gs2)
      | Panic => Panic
      end
  | Panic => Panic
  end.

(** Read the receiver. *)
Definition get : M Timer := λ t, Ok t t [].

(** Assign to the receiver's fields. *)
Definition modify (f : Timer → Timer) : M unit := λ t, Ok tt (f t) [].

(** A run-time panic. *)
Definition panic {A : Type} : M A := λ _, Panic.

(** [go g()]. *)
Definition spawn (g : goroutine) : M unit := λ t, Ok tt t [g].

(** [time.NewTicker(d)] panics unless [d] is positive. *)
Definition NewTicker (d : Duration) : M Ticker :=
  if d <=? 0 then panic else mret (mkTicker d true).

(** [p.Stop()] on a [*time.Ticker]: a nil pointer dereference when [p] is
    [nil]; otherwise the ticker stops firing. *)
Definition Ticker_Stop (p : option Ticker) : M (option Ticker) :=
  match p with
  | None => panic
  | Some k => mret (Some (mkTicker (period k) false))
  end.

(** ** timer.go *)

(** The zero [time.Time] (1 January of year 1, UTC) on the Unix clock. *)
Definition zeroTime : time.Time := -62135596800 * 1000000000.

(** [func New() *Timer]: every field the literal leaves out has its zero
    value. *)
Definition New : Timer :=
  {| updateInterval := defaultUpdateInterval;
     tickerInterval := defaultTickerInterval;
     ticker := None;
     updateTicker := None;
     tState := Stopped;
     startTime := zeroTime;
     elapsed := 0;
     pauseTime := zeroTime;
     subtimers := ∅;
     allowResumeAfterStop := false;
     continueCountingWhenStopped := false;
     stopOnSubtimersFinish := false |}.

(** [func (t *Timer) checkValidState(op operation) bool].  The [default]
    branch of the switch has no counterpart: [operation] has five values. *)
Definition checkValidState (op : operation) : M bool :=
  t ← get;
  match op with
  | resetOp => mret (State_eqb (tState t) Stopped)
  | startOp => mret (State_eqb (tState t) Reset)
  | pauseOp => mret (State_eqb (tState t) Running)
  | resumeOp =>
      mret (State_eqb (tState t) Paused
            || (State_eqb (tState t) Stopped && allowResumeAfterStop t))
  | stopOp =>
      mret (State_eqb (tState t) Running || State_eqb (tState t) Paused)
  end.

(** [func (t *Timer) SetUpdateInterval(updateInterval int) error]. *)
Definition SetUpdateInterval (v : Z) : M (option error) :=
  t ← get;
  if negb (State_eqb (tState t) Stopped) then
    mret (Some (Errorf
      "UpdateInterval can only be changed when timer is stopped" []))
  else if v <? 0 then
    mret (Some (Errorf
      "Only positive values for updateInterval are allowed" []))
  else if v =? 0 then
    modify (set_updateInterval defaultUpdateInterval);;
    mret None
  else
    modify (set_updateInterval v);;
    mret None.

(** [func (t *Timer) StartTimer() error]; [now] is what [time.Now()]
    returns.  [time.Duration(n) * time.Millisecond] is an [int64] product. *)
Definition StartTimer (now : time.Time) : M (option error) :=
  ok ← checkValidState startOp;
  if negb ok then
    mret (Some (Errorf "StartTimer called with invalid state" []))
  else
    modify (set_tState Running);;
    t ← get;
    k ← NewTicker (wrap64 (tickerInterval t * Millisecond));
    modify (set_ticker (Some k));;
    t ← get;
    k ← NewTicker (wrap64 (updateInterval t * Millisecond));
    modify (set_updateTicker (Some k));;
    modify (set_startTime now);;
    spawn go_startSubTimers;;
    spawn go_timerLoop;;
    mret None.

(** [func (t *Timer) StopTimer() error]. *)
Definition StopTimer : M (option error) :=
  ok ← checkValidState stopOp;
  if negb ok then
    mret (Some (Errorf "StopTimer called with invalid state" []))
  else
    modify (set_tState Stopped);;
    t ← get;
    k ← Ticker_Stop (ticker t);
    modify (set_ticker k);;
    t ← get;
    k ← Ticker_Stop (updateTicker t);
    modify (set_updateTicker k);;
    mret None.

(** [func (t *Timer) ResetTimer() error]. *)
Definition ResetTimer : M (option error) :=
  ok ← checkValidState resetOp;
  if negb ok then
    mret (Some (Errorf "ResetTimer called with invalid state" []))
  else
    modify (set_subtimers ∅);;
    modify (set_tState Reset);;
    modify (set_ticker None);;
    modify (set_updateTicker None);;
    mret None.

(** [func (t *Timer) PauseTimer() error]. *)
Definition PauseTimer (now : time.Time) : M (option error) :=
  ok ← checkValidState pauseOp;
  if negb ok then
    mret (Some (Errorf "PauseTimer called with invalid state" []))
  else
    modify (set_tState Paused);;
    modify (set_pauseTime now);;
    mret None.

(** [func (t *Timer) resumeAfterStop()]: the body is empty. *)
Definition resumeAfterStop : M unit := mret tt.

(** [func (t *Timer) resumeAfterPause()]. *)
Definition resumeAfterPause (now : time.Time) : M unit :=
  t ← get;
  modify (set_startTime (Add (startTime t) (Since now (pauseTime t))));;
  modify (set_tState Running);;
  spawn go_timerLoop.

(** [func (t *Timer) ResumeTimer() error]. *)
Definition ResumeTimer (now : time.Time) : M (option error) :=
  t ← get;
  (if State_eqb (tState t) Paused then resumeAfterPause now
   else if State_eqb (tState t) Stopped && allowResumeAfterStop t
        then resumeAfterStop
        else mret tt);;
  mret None.

(** One turn of the [for] loop of [timerLoop], once the ticker's channel
    has delivered a tick: the body of the [case].  The result is the value
    sent on [t.Updates], if one is sent. *)
Definition timerLoop_tick (now : time.Time) : M (option Duration) :=
  t ← get;
  if State_eqb (tState t) Running then
    modify (set_elapsed (Sub now (startTime t)));;
    t ← get;
    mret (Some (elapsed t))
  else mret None.

(** [func (t *Timer) timerLoop()] over the ticks it receives, each with the
    clock reading of its turn; the result lists the values sent on
    [t.Updates], in order.  The loop of the source never ends: this is any
    finite prefix of it. *)
Fixpoint timerLoop (ticks : list time.Time) : M (list Duration) :=
  match ticks with
  | [] => mret []
  | now :: rest =>
      v ← timerLoop_tick now;
      vs ← timerLoop rest;
      mret (option_list v ++ vs)
  end.

(** ** subtimer.go *)

(** A write through the pointer the registry holds under [id]. *)
Definition store_sub (id : Z) (s : subtimer) : M unit :=
  modify (λ t, set_subtimers (<[id := s]> (subtimers t)) t).

(** [func (t *Timer) AddSubTimer(id int) error]. *)
Definition AddSubTimer (id : Z) : M (option error) :=
  t ← get;
  if negb (State_eqb (tState t) Reset) then
    mret (Some (Errorf
      "Subtimer can only be added when timer is in reset state" []))
  else
    match subtimers t !! id with
    | Some _ => mret (Some (Errorf "Subtimer with key %v already exists" [id]))
    | None =>
        let s := mkSubtimer 0 Reset in
        store_sub id s;;
        mret None
    end.

(** [func (t *Timer) checkSubTimerFinish() bool]: the loop returns [false]
    at the first subtimer that is not stopped. *)
Definition checkSubTimerFinish : M bool :=
  t ← get;
  mret (forallb (λ kv : Z * subtimer, State_eqb (state kv.2) Stopped)
          (map_to_list (subtimers t))).

(** [func (t *Timer) StopSubTimer(id int) (time.Duration, error)].  The
    [if t.State == Running && s.state == Running] of the source has an
    empty body; the error of [t.StopTimer()] is dropped there. *)
Definition StopSubTimer (id : Z) : M (Duration * option error) :=
  t ← get;
  match subtimers t !! id with
  | None =>
      mret (0, Some (Errorf "Subtimer with id %v does not exist" [id]))
  | Some s =>
      let s := mkSubtimer (Time s) Stopped in
      store_sub id s;;
      t ← get;
      let s := mkSubtimer (elapsed t) (state s) in
      store_sub id s;;
      t ← get;
      fin ← (if stopOnSubtimersFinish t then checkSubTimerFinish
             else mret false);
      (if fin : bool then StopTimer;; mret tt else mret tt);;
      mret (Time s, None)
  end.

(** [func (t *Timer) startSubTimers()]. *)
Definition startSubTimers : M unit :=
  t ← get;
  if (Z.of_nat (size (subtimers t)) <=? 0) then mret tt
  else
    modify (set_subtimers
              ((λ s, mkSubtimer (Time s) Running) <$> subtimers t)).

(** ** Auxiliary definitions for the statements *)

(** Every registered subtimer is stopped. *)
Definition all_stopped (m : gmap Z subtimer) : Prop :=
  map_Forall (λ _ s, state s = Stopped) m.

(** The registry after [StopSubTimer id] wrote through the pointer. *)
Definition stopped_at (id : Z) (t : Timer) : Timer :=
  set_subtimers (<[id := mkSubtimer (elapsed t) Stopped]> (subtimers t)) t.

(** What can happen to a timer: a call of an exported method, or a turn of
    one of the goroutines [StartTimer] and [ResumeTimer] spawn. *)
Inductive call : Type :=
  | call_SetUpdateInterval (v : Z)
  | call_StartTimer (now : time.Time)
  | call_StopTimer
  | call_ResetTimer
  | call_PauseTimer (now : time.Time)
  | call_ResumeTimer (now : time.Time)
  | call_AddSubTimer (id : Z)
  | call_StopSubTimer (id : Z)
  | turn_startSubTimers
  | turn_timerLoop (now : time.Time).

Definition perform (c : call) : M unit :=
  match c with
  | call_SetUpdateInterval v => SetUpdateInterval v;; mret tt
  | call_StartTimer now => StartTimer now;; mret tt
  | call_StopTimer => StopTimer;; mret tt
  | call_ResetTimer => ResetTimer;; mret tt
  | call_PauseTimer now => PauseTimer now;; mret tt
  | call_ResumeTimer now => ResumeTimer now;; mret tt
  | call_AddSubTimer id => AddSubTimer id;; mret tt
  | call_StopSubTimer id => StopSubTimer id;; mret tt
  | turn_startSubTimers => startSubTimers
  | turn_timerLoop now => timerLoop_tick now;; mret tt
  end.

Fixpoint perform_all (cs : list call) : M unit :=
  match cs with
  | [] => mret tt
  | c :: cs => perform c;; perform_all cs
  end.

(** The tickers exist whenever the state says they were started: what
    keeps [StopTimer] from dereferencing [nil]. *)
Definition tickers_ready (t : Timer) : Prop :=
  tState t = Running ∨ tState t = Paused →
  is_Some (ticker t) ∧ is_Some (updateTicker t).

(** *** Timers the statements are evaluated at *)

(** The timer after [New()], [ResetTimer()] and [StartTimer()] with the
    clock at 0. *)
Definition running_example : Timer :=
  {| updateInterval := 10;
     tickerInterval := 10;
     ticker := Some (mkTicker 10000000 true);
     updateTicker := Some (mkTicker 10000000 true);
     tState := Running;
     startTime := 0;
     elapsed := 0;
     pauseTime := zeroTime;
     subtimers := ∅;
     allowResumeAfterStop := false;
     continueCountingWhenStopped := false;
     stopOnSubtimersFinish := false |}.

(** A timer as [New()] returns it, with [allowResumeAfterStop] switched
    on. *)
Definition resumable_example : Timer :=
  {| updateInterval := defaultUpdateInterval;
     tickerInterval := defaultTickerInterval;
     ticker := None;
     updateTicker := None;
     tState := Stopped;
     startTime := zeroTime;
     elapsed := 0;
     pauseTime := zeroTime;
     subtimers := ∅;
     allowResumeAfterStop := true;
     continueCountingWhenStopped := false;
     stopOnSubtimersFinish := false |}.

(** A timer in state [st] with the subtimers 1 and 2, in the states [s1]
    and [s2], its loop having measured 40 ms so far. *)
Definition two_subtimers (st s1 s2 : State) (flag : bool) : Timer :=
  {| updateInterval := 10;
     tickerInterval := 10;
     ticker := Some (mkTicker 10000000 true);
     updateTicker := Some (mkTicker 10000000 true);
     tState := st;
     startTime := 0;
     elapsed := 40000000;
     pauseTime := zeroTime;
     subtimers := {[ 1 := mkSubtimer 0 s1; 2 := mkSubtimer 0 s2 ]};
     allowResumeAfterStop := false;
     continueCountingWhenStopped := false;
     stopOnSubtimersFinish := flag |}.

(** A running timer with two running subtimers. *)
Definition both_running (flag : bool) : Timer :=
  two_subtimers Running Running Running flag.

(** A timer in state [Reset] whose subtimer 2 is stopped already; the
    switch [stopOnSubtimersFinish] is on. *)
Definition one_left : Timer := two_subtimers Reset Reset Stopped true.


(** A first run that measures 5 s, then stop, reset and a second start
    with the clock at 6 s. *)
Definition restart_calls : list call :=
  [call_ResetTimer; call_StartTimer 0; turn_timerLoop 5000000000;
   call_StopTimer; call_ResetTimer; call_StartTimer 6000000000].

(** The timer [restart_calls] leads to from [New]. *)
Definition restarted_example : Timer :=
  {| updateInterval := 10;
     tickerInterval := 10;
     ticker := Some (mkTicker 10000000 true);
     updateTicker := Some (mkTicker 10000000 true);
     tState := Running;
     startTime := 6000000000;
     elapsed := 5000000000;
     pauseTime := zeroTime;
     subtimers := ∅;
     allowResumeAfterStop := false;
     continueCountingWhenStopped := false;
     stopOnSubtimersFinish := false |}.

(** ** The earlier revision of timer.go

    The second text in the timer's source file is the revision before the
    state checks: its methods return nothing and act in every state.  Its
    [Timer] has no [allowResumeAfterStop]; [New], [SetUpdateInterval] and
    [timerLoop] are the same as above. *)

Module earlier.

(** [func (t *Timer) StartTimer()]. *)
Definition StartTimer (now : time.Time) : M unit :=
  modify (set_tState Running);;
  t ← get;
  k ← NewTicker (wrap64 (tickerInterval t * Millisecond));
  modify (set_ticker (Some k));;
  t ← get;
  k ← NewTicker (wrap64 (updateInterval t * Millisecond));
  modify (set_updateTicker (Some k));;
  modify (set_startTime now);;
  spawn go_startSubTimers;;
  spawn go_timerLoop.

(** [func (t *Timer) StopTimer()]. *)
Definition StopTimer : M unit :=
  modify (set_tState Stopped);;
  t ← get;
  k ← Ticker_Stop (ticker t);
  modify (set_ticker k);;
  t ← get;
  k ← Ticker_Stop (updateTicker t);
  modify (set_updateTicker k).

(** [func (t *Timer) ResetTimer()]. *)
Definition ResetTimer : M unit :=
  modify (set_subtimers ∅);;
  modify (set_tState Reset);;
  modify (set_ticker None);;
  modify (set_updateTicker None).

(** [func (t *Timer) PauseTimer()]. *)
Definition PauseTimer (now : time.Time) : M unit :=
  modify (set_tState Paused);;
  modify (set_pauseTime now).

(** [func (t *Timer) ResumeTimer()]. *)
Definition ResumeTimer (now : time.Time) : M unit :=
  t ← get;
  modify (set_startTime (Add (startTime t) (Since now (pauseTime t))));;
  spawn go_timerLoop;;
  modify (set_tState Running).

(** [func main()] of example/main.go against this revision: the timer
    from [New] is started (clock [n0]), paused ([n1]) and resumed ([n2]);
    [ticks0], [ticks1] and [ticks2] are the clock readings of the loop's
    turns before the pause, during it and after the resume.  The result
    lists the values the main loop receives on [t.Updates]. *)
Definition example_main (n0 n1 n2 : time.Time)
    (ticks0 ticks1 ticks2 : list time.Time) : Res (list Duration) :=
  (StartTimer n0;;
   vs0 ← timerLoop ticks0;
   PauseTimer n1;;
   vs1 ← timerLoop ticks1;
   ResumeTimer n2;;
   vs2 ← timerLoop ticks2;
   mret (vs0 ++ vs1 ++ vs2)) New.

End earlier.

(** ** example/main.go *)

(** [func main()]: a timer from [New] is started; a goroutine pauses it
    (clock [n1]) and resumes it (clock [n2]); the main loop prints what it
    receives on [t.Updates].  [ticks0], [ticks1] and [ticks2] are the clock
    readings of the loop's turns before the pause, during it and after the
    resume; the result lists the values printed (the errors the methods
    return are dropped, as in the source, and kept here beside them). *)
Definition example_main (n0 n1 n2 : time.Time)
    (ticks0 ticks1 ticks2 : list time.Time)
  : Res (option error * option error * option error * list Duration) :=
  (e0 ← StartTimer n0;
   vs0 ← timerLoop ticks0;
   e1 ← PauseTimer n1;
   vs1 ← timerLoop ticks1;
   e2 ← ResumeTimer n2;
   vs2 ← timerLoop ticks2;
   mret (e0, e1, e2, vs0 ++ vs1 ++ vs2)) New.

(** ** Further definitions for the statements *)

(** The edges of the state machine. *)
Definition transition (a b : State) : Prop :=
  match a, b with
  | Stopped, Reset | Reset, Running | Running, Paused | Paused, Running
  | Running, Stopped | Paused, Stopped => True
  | _, _ => False
  end.

(** Calls that find a stopped timer in a state they do not accept, and the
    turns of the loop. *)
Definition ignored_when_stopped (c : call) : bool :=
  match c with
  | call_StartTimer _ | call_StopTimer | call_PauseTimer _
  | call_ResumeTimer _ | turn_timerLoop _ | call_AddSubTimer _ => true
  | _ => false
  end.

(** Pause and resume, again and again: from the clock reading [now], each
    pair [(a, b)] pauses after running for [a] and resumes [b] later. *)
Fixpoint pause_cycles (now : time.Time) (cycles : list (Z * Z)) : list call :=
  match cycles with
  | [] => []
  | (a, b) :: rest =>
      call_PauseTimer (now + a) :: call_ResumeTimer (now + a + b)
        :: pause_cycles (now + a + b) rest
  end.

(** The time spent running, and the time spent paused, over the cycles. *)
Definition ran (cycles : list (Z * Z)) : Z := foldr (λ c s, c.1 + s) 0 cycles.
Definition paused (cycles : list (Z * Z)) : Z :=
  foldr (λ c s, c.2 + s) 0 cycles.

(** What the methods make of a subtimer: it is never paused, and while it
    is in state [Reset] its time is zero. *)
Definition subtimer_ok (s : subtimer) : Prop :=
  state s ≠ Paused ∧ (state s = Reset → Time s = 0).

(** The largest interval, in milliseconds, whose nanoseconds fit a
    [Duration]. *)
Definition maxIntervalMillis : Z := 9223372036854.

(** The timer after a successful [StartTimer] and [StopTimer]. *)
Definition started (now : time.Time) (t : Timer) : Timer :=
  set_startTime now
    (set_updateTicker
       (Some (mkTicker (wrap64 (updateInterval t * Millisecond)) true))
       (set_ticker
          (Some (mkTicker (wrap64 (tickerInterval t * Millisecond)) true))
          (set_tState Running t))).

Definition halted (k1 k2 : Ticker) (t : Timer) : Timer :=
  set_updateTicker (Some (mkTicker (period k2) false))
    (set_ticker (Some (mkTicker (period k1) false)) (set_tState Stopped t)).

(** The changes one call, or one turn of a goroutine, can make to a timer:
    one constructor for each place where a method writes. *)
Inductive step : Timer → Timer → Prop :=
  | step_SetUpdateInterval t v :
      tState t = Stopped → 0 < v → step t (set_updateInterval v t)
  | step_StartTimer t now :
      tState t = Reset →
      0 < wrap64 (tickerInterval t * Millisecond) →
      0 < wrap64 (updateInterval t * Millisecond) →
      step t (started now t)
  | step_StopTimer t k1 k2 :
      tState t = Running ∨ tState t = Paused →
      ticker t = Some k1 → updateTicker t = Some k2 →
      step t (halted k1 k2 t)
  | step_ResetTimer t :
      tState t = Stopped →
      step t (set_updateTicker None
                (set_ticker None (set_tState Reset (set_subtimers ∅ t))))
  | step_PauseTimer t now :
      tState t = Running → step t (set_pauseTime now (set_tState Paused t))
  | step_ResumeTimer t now :
      tState t = Paused →
      step t (set_tState Running
                (set_startTime (Add (startTime t) (Since now (pauseTime t)))
                   t))
  | step_AddSubTimer t id :
      tState t = Reset → subtimers t !! id = None →
      step t (set_subtimers (<[id := mkSubtimer 0 Reset]> (subtimers t)) t)
  | step_StopSubTimer t id s :
      subtimers t !! id = Some s →
      stopOnSubtimersFinish t = false
      ∨ ¬ all_stopped (subtimers (stopped_at id t))
      ∨ (tState t ≠ Running ∧ tState t ≠ Paused) →
      step t (stopped_at id t)
  | step_StopSubTimer_last t id s k1 k2 :
      subtimers t !! id = Some s →
      stopOnSubtimersFinish t = true →
      all_stopped (subtimers (stopped_at id t)) →
      tState t = Running ∨ tState t = Paused →
      ticker t = Some k1 → updateTicker t = Some k2 →
      step t (halted k1 k2 (stopped_at id t))
  | step_startSubTimers t :
      step t (set_subtimers
                ((λ s, mkSubtimer (Time s) Running) <$> subtimers t) t)
  | step_timerLoop t now :
      tState t = Running → step t (set_elapsed (Sub now (startTime t)) t).

(** A new update interval of 250 ms, then reset and start. *)
Definition retimed_calls : list call :=
  [call_SetUpdateInterval 250; call_ResetTimer; call_StartTimer 0].

(** The timer [retimed_calls] leads to from [New]. *)
Definition retimed_example : Timer :=
  {| updateInterval := 250;
     tickerInterval := 10;
     ticker := Some (mkTicker 10000000 true);
     updateTicker := Some (mkTicker 250000000 true);
     tState := Running;
     startTime := 0;
     elapsed := 0;
     pauseTime := zeroTime;
     subtimers := ∅;
     allowResumeAfterStop := false;
     continueCountingWhenStopped := false;
     stopOnSubtimersFinish := false |}.

(** Two subtimers are added, the timer is started, the goroutine sets the
    subtimers running, the loop measures 40 ms and subtimer 1 is stopped:
    from [New] this leads to [stopped_at 1 (both_running false)]. *)
Definition registry_calls : list call :=
  [call_ResetTimer; call_AddSubTimer 1; call_AddSubTimer 2;
   call_StartTimer 0; turn_startSubTimers; turn_timerLoop 40000000;
   call_StopSubTimer 1].

(** ** Reasoning about the monad *)

Ltac run_M :=
  unfold store_sub, resumeAfterStop;
  unfold mbind, mret, M_bind, M_ret, get, modify, spawn, panic; cbn.

Lemma State_eqb_eq a b : State_eqb a b = true ↔ a = b.
Proof. by destruct a, b. Qed.

Lemma StartTimer_invalid now t :
  tState t ≠ Reset →
  StartTimer now t =
    Ok (Some (Errorf "StartTimer called with invalid state" [])) t [].
Proof.
  intros H. unfold StartTimer, checkValidState. run_M.
  destruct (tState t); try done.
Qed.

Lemma PauseTimer_invalid now t :
  tState t ≠ Running →
  PauseTimer now t =
    Ok (Some (Errorf "PauseTimer called with invalid state" [])) t [].
Proof.
  intros H. unfold PauseTimer, checkValidState. run_M.
  destruct (tState t); try done.
Qed.

Lemma StopTimer_invalid t :
  tState t ≠ Running → tState t ≠ Paused →
  StopTimer t =
    Ok (Some (Errorf "StopTimer called with invalid state" [])) t [].
Proof.
  intros H1 H2. unfold StopTimer, checkValidState. run_M.
  destruct (tState t); try done.
Qed.

Lemma ResetTimer_invalid t :
  tState t ≠ Stopped →
  ResetTimer t =
    Ok (Some (Errorf "ResetTimer called with invalid state" [])) t [].
Proof.
  intros H. unfold ResetTimer, checkValidState. run_M.
  destruct (tState t); try done.
Qed.

Lemma ResumeTimer_not_paused now t :
  tState t ≠ Paused → ResumeTimer now t = Ok None t [].
Proof.
  intros H. unfold ResumeTimer. run_M.
  destruct (tState t); try done; cbn.
  by destruct (allowResumeAfterStop t).
Qed.

Lemma ResumeTimer_paused now t :
  tState t = Paused →
  ResumeTimer now t =
    Ok None
      (set_tState Running
         (set_startTime (Add (startTime t) (Since now (pauseTime t))) t))
      [go_timerLoop].
Proof.
  intros H. unfold ResumeTimer, resumeAfterPause. run_M. by rewrite H.
Qed.

Lemma StopTimer_valid t k1 k2 :
  tState t = Running ∨ tState t = Paused →
  ticker t = Some k1 → updateTicker t = Some k2 →
  StopTimer t =
    Ok None
      (set_updateTicker (Some (mkTicker (period k2) false))
         (set_ticker (Some (mkTicker (period k1) false))
            (set_tState Stopped t))) [].
Proof.
  intros H H1 H2. unfold StopTimer, checkValidState, Ticker_Stop. run_M.
  destruct H as [-> | ->]; cbn; rewrite H1; cbn; by rewrite H2.
Qed.

Lemma ResetTimer_valid t :
  tState t = Stopped →
  ResetTimer t =
    Ok None
      (set_updateTicker None
         (set_ticker None (set_tState Reset (set_subtimers ∅ t)))) [].
Proof.
  intros H. unfold ResetTimer, checkValidState. run_M. by rewrite H.
Qed.

Lemma PauseTimer_valid now t :
  tState t = Running →
  PauseTimer now t = Ok None (set_pauseTime now (set_tState Paused t)) [].
Proof.
  intros H. unfold PauseTimer, checkValidState. run_M. by rewrite H.
Qed.

Lemma StartTimer_valid now t :
  tState t = Reset →
  0 < wrap64 (tickerInterval t * Millisecond) →
  0 < wrap64 (updateInterval t * Millisecond) →
  StartTimer now t =
    Ok None
      (set_startTime now
         (set_updateTicker
            (Some (mkTicker (wrap64 (updateInterval t * Millisecond)) true))
            (set_ticker
               (Some (mkTicker (wrap64 (tickerInterval t * Millisecond)) true))
               (set_tState Running t))))
      [go_startSubTimers; go_timerLoop].
Proof.
  intros H H1 H2. unfold StartTimer, checkValidState, NewTicker. run_M.
  rewrite H. cbn.
  destruct (Z.leb_spec (wrap64 (tickerInterval t * Millisecond)) 0); [lia|].
  cbn.
  destruct (Z.leb_spec (wrap64 (updateInterval t * Millisecond)) 0); [lia|].
  done.
Qed.

(** *** The subtimer registry *)

Lemma checkSubTimerFinish_true t :
  all_stopped (subtimers t) → checkSubTimerFinish t = Ok true t [].
Proof.
  intros H. unfold checkSubTimerFinish. run_M. f_equal.
  apply Is_true_true, forallb_True.
  apply map_Forall_to_list in H.
  eapply Forall_impl; [exact H|].
  intros [k s] Hs; cbn in *. by rewrite Hs.
Qed.

Lemma checkSubTimerFinish_false t k s :
  subtimers t !! k = Some s → state s ≠ Stopped →
  checkSubTimerFinish t = Ok false t [].
Proof.
  intros Hk Hs. unfold checkSubTimerFinish. run_M. f_equal.
  apply not_true_is_false. intros H.
  apply Is_true_true, forallb_True in H.
  rewrite Forall_forall in H.
  specialize (H (k, s)). cbn in H.
  apply Hs, State_eqb_eq, Is_true_true, H.
  by apply elem_of_map_to_list.
Qed.

Lemma StopSubTimer_unknown id t :
  subtimers t !! id = None →
  StopSubTimer id t =
    Ok (0, Some (Errorf "Subtimer with id %v does not exist" [id])) t [].
Proof. intros H. unfold StopSubTimer. run_M. by rewrite H. Qed.

Lemma set_subtimers_twice m1 m2 t :
  set_subtimers m2 (set_subtimers m1 t) = set_subtimers m2 t.
Proof. done. Qed.

Lemma StopSubTimer_known id t s :
  subtimers t !! id = Some s →
  StopSubTimer id t =
    match
      (if stopOnSubtimersFinish t then checkSubTimerFinish else mret false)
        (stopped_at id t)
    with
    | Ok true _ _ =>
        match StopTimer (stopped_at id t) with
        | Ok _ t' gs => Ok (elapsed t, None) t' gs
        | Panic => Panic
        end
    | Ok false _ _ => Ok (elapsed t, None) (stopped_at id t) []
    | Panic => Panic
    end.
Proof.
  intros H. unfold StopSubTimer. run_M. rewrite H. cbn.
  rewrite insert_insert_eq, set_subtimers_twice. fold (stopped_at id t).
  destruct (stopOnSubtimersFinish t); cbn; [|done].
  unfold checkSubTimerFinish. run_M.
  match goal with |- context [forallb ?f ?l] => destruct (forallb f l) end;
    [|done].
  destruct (StopTimer (stopped_at id t)); cbn; [|done].
  by rewrite !app_nil_r.
Qed.

(** *** Calls and the invariant they keep *)

Lemma New_tickers_ready : tickers_ready New.
Proof. intros [H | H]; discriminate H. Qed.

Lemma StopTimer_returns t :
  tickers_ready t →
  ∃ e t', StopTimer t = Ok e t' [] ∧
          subtimers t' = subtimers t ∧ elapsed t' = elapsed t ∧
          tickers_ready t'.
Proof.
  intros Hw.
  destruct (decide (tState t = Running ∨ tState t = Paused)) as [Hs | Hs].
  - destruct (Hw Hs) as [[k1 H1] [k2 H2]].
    rewrite (StopTimer_valid t k1 k2) by done.
    eexists _, _. by repeat split.
  - rewrite StopTimer_invalid by tauto. by eexists _, _.
Qed.

Lemma perform_tickers_ready c t t' gs :
  perform c t = Ok tt t' gs → tickers_ready t → tickers_ready t'.
Proof.
  intros Hc Hw. destruct c; cbn in Hc; revert Hc.
  - unfold SetUpdateInterval. run_M.
    repeat case_match; intros; by simplify_eq.
  - unfold StartTimer, checkValidState, NewTicker. run_M.
    repeat (case_match; cbn in *); intros; simplify_eq; try done.
    all: intros _; cbn; eauto.
  - destruct (StopTimer_returns t Hw) as (e & t1 & H1 & _ & _ & Hw1).
    run_M. rewrite H1. by intros [= <- <-].
  - unfold ResetTimer, checkValidState. run_M.
    repeat (case_match; cbn in *); intros; simplify_eq; try done.
    all: intros [H | H]; discriminate H.
  - unfold PauseTimer, checkValidState. run_M.
    repeat (case_match; cbn in *); intros; simplify_eq; try done.
    all: intros _; cbn; apply Hw; left; by apply State_eqb_eq, negb_false_iff.
  - unfold ResumeTimer, resumeAfterPause. run_M.
    repeat (case_match; cbn in *); intros; simplify_eq; try done.
    all: intros _; cbn; apply Hw; right; by apply State_eqb_eq.
  - unfold AddSubTimer. run_M.
    repeat (case_match; cbn in *); intros; by simplify_eq.
  - run_M.
    destruct (subtimers t !! id) as [s|] eqn:Hs.
    + rewrite (StopSubTimer_known id t s Hs).
      assert (Hw1 : tickers_ready (stopped_at id t)) by done.
      destruct (StopTimer_returns _ Hw1) as (e & t1 & H1 & _ & _ & Hw2).
      rewrite H1.
      destruct (stopOnSubtimersFinish t); cbn.
      * unfold checkSubTimerFinish. run_M.
        repeat (case_match; cbn in *); intros; by simplify_eq.
      * intros; by simplify_eq.
    + rewrite (StopSubTimer_unknown id t Hs). by intros [= <- <-].
  - unfold startSubTimers. run_M.
    repeat (case_match; cbn in *); intros; by simplify_eq.
  - unfold timerLoop_tick. run_M.
    repeat (case_match; cbn in *); intros; by simplify_eq.
Qed.

Lemma perform_all_tickers_ready cs :
  ∀ t t' gs,
    perform_all cs t = Ok tt t' gs → tickers_ready t → tickers_ready t'.
Proof.
  induction cs as [|c cs IH]; intros t t' gs; cbn.
  - by intros [= <- <-].
  - run_M. destruct (perform c t) as [[] t1 gs1|] eqn:Hc; [|done].
    destruct (perform_all cs t1) as [[] t2 gs2|] eqn:Hcs; [|done].
    intros [= <- <-] Hw.
    eapply IH; [exact Hcs|]. by eapply perform_tickers_ready.
Qed.

(** ** The state guard of the transitions (C1, C3, C9) *)

(** X1: start, pause, stop and reset each return their error outside the
    state they require, spawn nothing and leave the timer as it was. *)
Theorem guarded_calls_reject (t : Timer) (now : time.Time) :
  (tState t ≠ Reset →
   StartTimer now t =
     Ok (Some (Errorf "StartTimer called with invalid state" [])) t []) ∧
  (tState t ≠ Running →
   PauseTimer now t =
     Ok (Some (Errorf "PauseTimer called with invalid state" [])) t []) ∧
  (tState t ≠ Running → tState t ≠ Paused →
   StopTimer t =
     Ok (Some (Errorf "StopTimer called with invalid state" [])) t []) ∧
  (tState t ≠ Stopped →
   ResetTimer t =
     Ok (Some (Errorf "ResetTimer called with invalid state" [])) t []).
Proof.
  split; [apply StartTimer_invalid|].
  split; [apply PauseTimer_invalid|].
  split; [apply StopTimer_invalid | apply ResetTimer_invalid].
Qed.

Lemma guarded_calls_reject_witness :
  StartTimer 7 running_example =
    Ok (Some (Errorf "StartTimer called with invalid state" []))
       running_example [] ∧
  PauseTimer 7 New =
    Ok (Some (Errorf "PauseTimer called with invalid state" [])) New [] ∧
  StopTimer New =
    Ok (Some (Errorf "StopTimer called with invalid state" [])) New [] ∧
  ResetTimer running_example =
    Ok (Some (Errorf "ResetTimer called with invalid state" []))
       running_example [].
Proof.
  split; [|split; [|split]].
  - apply (guarded_calls_reject running_example 7). discriminate.
  - apply (guarded_calls_reject New 7). discriminate.
  - apply (guarded_calls_reject New 7); discriminate.
  - apply (guarded_calls_reject running_example 7). discriminate.
Defined.

(** C1 (the code departs from the claim): on the running timer that
    [New], [ResetTimer], [StartTimer] lead to, [checkValidState resumeOp]
    answers [false], yet [ResumeTimer] returns the nil error.  It leaves the
    timer unchanged, but it does not fail. *)
Theorem C1_ResumeTimer_returns_nil_outside_its_states :
  perform_all [call_ResetTimer; call_StartTimer 0] New =
    Ok tt running_example [go_startSubTimers; go_timerLoop] ∧
  tState running_example = Running ∧
  checkValidState resumeOp running_example = Ok false running_example [] ∧
  ResumeTimer 7 running_example = Ok None running_example [].
Proof. repeat split. Qed.




(** C9: in state [Running] or [Reset], and in state [Stopped] without
    [allowResumeAfterStop], [ResumeTimer] returns the nil error, spawns
    nothing and leaves every field of the timer as it was. *)
Theorem C9_invalid_resume_is_a_silent_no_op (t : Timer) (now : time.Time) :
  tState t = Running ∨ tState t = Reset ∨
    (tState t = Stopped ∧ allowResumeAfterStop t = false) →
  ResumeTimer now t = Ok None t [].
Proof.
  intros H. apply ResumeTimer_not_paused.
  destruct H as [H | [H | [H _]]]; rewrite H; discriminate.
Qed.

Lemma C9_witness :
  ResumeTimer 7 running_example = Ok None running_example [] ∧
  ResumeTimer 7 New = Ok None New [].
Proof.
  split.
  - apply (C9_invalid_resume_is_a_silent_no_op running_example 7).
    left. reflexivity.
  - apply (C9_invalid_resume_is_a_silent_no_op New 7).
    right. right. split; reflexivity.
Defined.

(** ** The update interval (C7) *)

(** C7 (what fails): on the running timer that [New], [ResetTimer] and
    [StartTimer] lead to, [SetUpdateInterval] with the negative value -3
    returns the error of the state check, which comes first, and not the
    error about the value. *)
Lemma C7_negative_interval_on_a_running_timer :
  perform_all [call_ResetTimer; call_StartTimer 0] New =
    Ok tt running_example [go_startSubTimers; go_timerLoop] ∧
  SetUpdateInterval (-3) running_example =
    Ok (Some (Errorf
       "UpdateInterval can only be changed when timer is stopped" []))
       running_example [] ∧
  SetUpdateInterval (-3) running_example ≠
    Ok (Some (Errorf
       "Only positive values for updateInterval are allowed" []))
       running_example [].
Proof. repeat split. discriminate. Qed.

(** C7 (as amended): [SetUpdateInterval v] returns an error and stores
    nothing whenever the timer is not stopped (the error of the state
    check, for a negative [v] too), and for every negative [v]; on a
    stopped timer the error for a negative [v] is the one about the value,
    [v = 0] stores the default interval and a positive [v] is stored as it
    is. *)
Theorem C7_SetUpdateInterval (t : Timer) (v : Z) :
  (tState t ≠ Stopped →
   SetUpdateInterval v t =
     Ok (Some (Errorf
        "UpdateInterval can only be changed when timer is stopped" [])) t []) ∧
  (v < 0 → ∃ e, SetUpdateInterval v t = Ok (Some e) t []) ∧
  (tState t = Stopped → v < 0 →
   SetUpdateInterval v t =
     Ok (Some (Errorf
        "Only positive values for updateInterval are allowed" [])) t []) ∧
  (tState t = Stopped → v = 0 →
   SetUpdateInterval v t =
     Ok None (set_updateInterval defaultUpdateInterval t) [] ∧
   updateInterval (set_updateInterval defaultUpdateInterval t) = 10) ∧
  (tState t = Stopped → 0 < v →
   SetUpdateInterval v t = Ok None (set_updateInterval v t) [] ∧
   updateInterval (set_updateInterval v t) = v).
Proof.
  unfold SetUpdateInterval. run_M.
  split; [|split; [|split; [|split]]].
  - intros H. destruct (tState t); done.
  - intros H. destruct (tState t); cbn; eauto.
    destruct (Z.ltb_spec v 0); [eauto | lia].
  - intros -> H. cbn. destruct (Z.ltb_spec v 0); [done | lia].
  - intros -> ->. done.
  - intros -> H. cbn.
    destruct (Z.ltb_spec v 0); [lia|].
    destruct (Z.eqb_spec v 0); [lia | done].
Qed.

Lemma C7_witness :
  SetUpdateInterval (-3) running_example =
    Ok (Some (Errorf
       "UpdateInterval can only be changed when timer is stopped" []))
       running_example [] ∧
  SetUpdateInterval (-3) New =
    Ok (Some (Errorf
       "Only positive values for updateInterval are allowed" [])) New [] ∧
  (SetUpdateInterval 0 (set_updateInterval 25 New) =
     Ok None (set_updateInterval defaultUpdateInterval
                (set_updateInterval 25 New)) [] ∧
   updateInterval (set_updateInterval defaultUpdateInterval
                     (set_updateInterval 25 New)) = 10) ∧
  (SetUpdateInterval 25 New = Ok None (set_updateInterval 25 New) [] ∧
   updateInterval (set_updateInterval 25 New) = 25).
Proof.
  split; [|split; [|split]].
  - apply (C7_SetUpdateInterval running_example (-3)). discriminate.
  - apply (C7_SetUpdateInterval New (-3)); [reflexivity | lia].
  - apply (C7_SetUpdateInterval (set_updateInterval 25 New) 0); reflexivity.
  - apply (C7_SetUpdateInterval New 25); [reflexivity | lia].
Defined.

(** ** The subtimer registry (C2, C5, C6, C10) *)

(** C6: [AddSubTimer id] returns its state error unless the timer is in
    state [Reset]; in state [Reset] it returns the duplicate error when
    [id] is registered and otherwise registers a subtimer in state [Reset]
    under [id]; [ResetTimer] succeeds on a stopped timer, and whenever it
    succeeds the registry it leaves is empty, so [id] is not in it. *)
Theorem C6_AddSubTimer_and_the_reset_registry (t : Timer) (id : Z) :
  (tState t ≠ Reset →
   AddSubTimer id t =
     Ok (Some (Errorf
        "Subtimer can only be added when timer is in reset state" [])) t []) ∧
  (tState t = Reset → is_Some (subtimers t !! id) →
   AddSubTimer id t =
     Ok (Some (Errorf "Subtimer with key %v already exists" [id])) t []) ∧
  (tState t = Reset → subtimers t !! id = None →
   AddSubTimer id t =
     Ok None (set_subtimers (<[id := mkSubtimer 0 Reset]> (subtimers t)) t)
        []) ∧
  (tState t = Stopped → ∃ t', ResetTimer t = Ok None t' []) ∧
  (∀ t' gs, ResetTimer t = Ok None t' gs →
     subtimers t' = ∅ ∧ subtimers t' !! id = None ∧ tState t' = Reset).
Proof.
  split; [|split; [|split; [|split]]].
  - intros H. unfold AddSubTimer. run_M. destruct (tState t); done.
  - intros H [s Hs]. unfold AddSubTimer. run_M. by rewrite H, Hs.
  - intros H Hs. unfold AddSubTimer. run_M. by rewrite H, Hs.
  - intros H. rewrite ResetTimer_valid by done. eauto.
  - intros t' gs H.
    destruct (decide (tState t = Stopped)) as [Hs | Hs].
    + rewrite ResetTimer_valid in H by done. by simplify_eq.
    + rewrite ResetTimer_invalid in H by done. discriminate H.
Qed.

Lemma C6_witness :
  AddSubTimer 1 New =
    Ok (Some (Errorf
       "Subtimer can only be added when timer is in reset state" [])) New [] ∧
  AddSubTimer 1 (two_subtimers Reset Reset Reset false) =
    Ok (Some (Errorf "Subtimer with key %v already exists" [1]))
       (two_subtimers Reset Reset Reset false) [] ∧
  AddSubTimer 3 (two_subtimers Reset Reset Reset false) =
    Ok None
       (set_subtimers
          (<[3 := mkSubtimer 0 Reset]>
             (subtimers (two_subtimers Reset Reset Reset false)))
          (two_subtimers Reset Reset Reset false)) [] ∧
  (∃ t', ResetTimer (two_subtimers Stopped Stopped Stopped false) =
           Ok None t' []).
Proof.
  split; [|split; [|split]].
  - apply (C6_AddSubTimer_and_the_reset_registry New 1). discriminate.
  - apply (C6_AddSubTimer_and_the_reset_registry
             (two_subtimers Reset Reset Reset false) 1);
      [reflexivity | eexists; reflexivity].
  - apply (C6_AddSubTimer_and_the_reset_registry
             (two_subtimers Reset Reset Reset false) 3); reflexivity.
  - apply (C6_AddSubTimer_and_the_reset_registry
             (two_subtimers Stopped Stopped Stopped false) 1). reflexivity.
Defined.

(** C5: [StopSubTimer id] on an unregistered [id] returns the zero
    duration with its error and leaves the timer as it was; on a registered
    [id], in whatever state the timer and the subtimer are, it returns the
    timer's elapsed time with the nil error, and the registry it leaves is
    the old one with [id] bound to a stopped subtimer holding that elapsed
    time. *)
Theorem C5_StopSubTimer (t : Timer) (id : Z) :
  tickers_ready t →
  match subtimers t !! id with
  | None =>
      StopSubTimer id t =
        Ok (0, Some (Errorf "Subtimer with id %v does not exist" [id])) t []
  | Some _ =>
      ∃ t', StopSubTimer id t = Ok (elapsed t, None) t' [] ∧
            subtimers t' =
              <[id := mkSubtimer (elapsed t) Stopped]> (subtimers t) ∧
            subtimers t' !! id = Some (mkSubtimer (elapsed t) Stopped) ∧
            elapsed t' = elapsed t
  end.
Proof.
  intros Hw. destruct (subtimers t !! id) as [s|] eqn:Hs.
  - rewrite (StopSubTimer_known id t s Hs).
    assert (Hw1 : tickers_ready (stopped_at id t)) by done.
    destruct (StopTimer_returns _ Hw1) as (e & t1 & H1 & Hm & He & _).
    rewrite H1.
    assert (Hlk : ∀ t2, subtimers t2 = subtimers (stopped_at id t) →
              subtimers t2 !! id = Some (mkSubtimer (elapsed t) Stopped)).
    { intros t2 ->. cbn. apply lookup_insert_eq. }
    destruct (stopOnSubtimersFinish t); cbn.
    + unfold checkSubTimerFinish. run_M.
      case_match; eexists; split; try done; auto.
    + eexists; split; try done; auto.
  - by apply StopSubTimer_unknown.
Qed.

Lemma C5_witness :
  StopSubTimer 5 (two_subtimers Running Running Stopped true) =
    Ok (0, Some (Errorf "Subtimer with id %v does not exist" [5]))
       (two_subtimers Running Running Stopped true) [] ∧
  ∃ t', StopSubTimer 1 (two_subtimers Running Running Stopped true) =
          Ok (40000000, None) t' [] ∧
        subtimers t' =
          <[1 := mkSubtimer 40000000 Stopped]>
            (subtimers (two_subtimers Running Running Stopped true)) ∧
        subtimers t' !! 1 = Some (mkSubtimer 40000000 Stopped) ∧
        elapsed t' = 40000000.
Proof.
  split.
  - apply (C5_StopSubTimer (two_subtimers Running Running Stopped true) 5).
    intros _. split; eexists; reflexivity.
  - apply (C5_StopSubTimer (two_subtimers Running Running Stopped true) 1).
    intros _. split; eexists; reflexivity.
Defined.

(** C10: with [stopOnSubtimersFinish] set and the timer in state [Reset]
    or [Stopped], a [StopSubTimer id] after which every registered subtimer
    is stopped reaches the call of [StopTimer]; that call returns its state
    error, which is dropped: [StopSubTimer] returns the elapsed time with
    the nil error and changes nothing but the subtimer. *)
Theorem C10_dropped_StopTimer_error (t : Timer) (id : Z) (s : subtimer) :
  stopOnSubtimersFinish t = true →
  tState t = Reset ∨ tState t = Stopped →
  subtimers t !! id = Some s →
  (∀ k s', k ≠ id → subtimers t !! k = Some s' → state s' = Stopped) →
  checkSubTimerFinish (stopped_at id t) = Ok true (stopped_at id t) [] ∧
  StopTimer (stopped_at id t) =
    Ok (Some (Errorf "StopTimer called with invalid state" []))
       (stopped_at id t) [] ∧
  StopSubTimer id t = Ok (elapsed t, None) (stopped_at id t) [] ∧
  tState (stopped_at id t) = tState t.
Proof.
  intros Hf Hst Hs Hall.
  assert (Hfin : checkSubTimerFinish (stopped_at id t) =
                   Ok true (stopped_at id t) []).
  { apply checkSubTimerFinish_true. intros k s' Hk. cbn in Hk.
    destruct (decide (k = id)) as [-> | Hne].
    - rewrite lookup_insert_eq in Hk. by simplify_eq.
    - rewrite lookup_insert_ne in Hk by done. by eapply Hall. }
  assert (Hstop : StopTimer (stopped_at id t) =
            Ok (Some (Errorf "StopTimer called with invalid state" []))
               (stopped_at id t) []).
  { apply StopTimer_invalid; cbn; destruct Hst as [-> | ->]; discriminate. }
  repeat split; try done.
  rewrite (StopSubTimer_known id t s Hs), Hf, Hfin, Hstop. done.
Qed.

Lemma C10_witness :
  checkSubTimerFinish (stopped_at 1 (one_left)) =
    Ok true (stopped_at 1 (one_left)) [] ∧
  StopTimer (stopped_at 1 (one_left)) =
    Ok (Some (Errorf "StopTimer called with invalid state" []))
       (stopped_at 1 (one_left)) [] ∧
  StopSubTimer 1 (one_left) =
    Ok (40000000, None) (stopped_at 1 (one_left)) [] ∧
  tState (stopped_at 1 (one_left)) = Reset.
Proof.
  apply (C10_dropped_StopTimer_error
           (one_left) 1 (mkSubtimer 0 Reset)).
  - reflexivity.
  - left. reflexivity.
  - reflexivity.
  - intros k s' Hk Hs. cbn in Hs.
    rewrite lookup_insert_ne in Hs by done.
    apply lookup_singleton_Some in Hs as [_ <-]. reflexivity.
Defined.


Lemma StopSubTimer_not_last (t : Timer) (i j : Z) (si sj : subtimer) :
  subtimers t !! i = Some si → subtimers t !! j = Some sj → i ≠ j →
  state sj ≠ Stopped →
  StopSubTimer i t = Ok (elapsed t, None) (stopped_at i t) [].
Proof.
  intros Hi Hj Hne Hs. rewrite (StopSubTimer_known i t si Hi).
  destruct (stopOnSubtimersFinish t); [|done].
  rewrite (checkSubTimerFinish_false _ j sj); [done| |done].
  cbn. by rewrite lookup_insert_ne.
Qed.

Lemma StopSubTimer_last (t : Timer) (j : Z) (sj : subtimer) :
  subtimers t !! j = Some sj →
  (∀ k s, k ≠ j → subtimers t !! k = Some s → state s = Stopped) →
  tState t = Running → tickers_ready t →
  if stopOnSubtimersFinish t then
    ∃ t', StopTimer (stopped_at j t) = Ok None t' [] ∧
          StopSubTimer j t = Ok (elapsed t, None) t' [] ∧
          tState t' = Stopped
  else
    StopSubTimer j t = Ok (elapsed t, None) (stopped_at j t) [] ∧
    tState (stopped_at j t) = Running.
Proof.
  intros Hj Hall Hr Hw. rewrite (StopSubTimer_known j t sj Hj).
  destruct (stopOnSubtimersFinish t); [|done].
  rewrite checkSubTimerFinish_true.
  - destruct (Hw (or_introl Hr)) as [[k1 H1] [k2 H2]].
    rewrite (StopTimer_valid (stopped_at j t) k1 k2) by (cbn; auto).
    by eexists.
  - intros k s Hk. cbn in Hk.
    destruct (decide (k = j)) as [-> | Hne].
    + rewrite lookup_insert_eq in Hk. by simplify_eq.
    + rewrite lookup_insert_ne in Hk by done. by eapply Hall.
Qed.

Lemma StopSubTimer_both (t : Timer) (i j : Z) (si sj : subtimer) :
  subtimers t !! i = Some si → subtimers t !! j = Some sj → i ≠ j →
  (∀ k, k ≠ i → k ≠ j → subtimers t !! k = None) →
  state sj ≠ Stopped →
  tState t = Running → tickers_ready t →
  StopSubTimer i t = Ok (elapsed t, None) (stopped_at i t) [] ∧
  tState (stopped_at i t) = Running ∧
  if stopOnSubtimersFinish t then
    ∃ t', StopTimer (stopped_at j (stopped_at i t)) = Ok None t' [] ∧
          StopSubTimer j (stopped_at i t) = Ok (elapsed t, None) t' [] ∧
          tState t' = Stopped
  else
    StopSubTimer j (stopped_at i t) =
      Ok (elapsed t, None) (stopped_at j (stopped_at i t)) [] ∧
    tState (stopped_at j (stopped_at i t)) = Running.
Proof.
  intros Hi Hj Hne Hdom Hs Hr Hw.
  split; [by eapply StopSubTimer_not_last|].
  split; [done|].
  apply (StopSubTimer_last (stopped_at i t) j sj); try done.
  - cbn. by rewrite lookup_insert_ne.
  - intros k s Hk Hlk. cbn in Hlk.
    destruct (decide (k = i)) as [-> | Hki].
    + rewrite lookup_insert_eq in Hlk. by simplify_eq.
    + rewrite lookup_insert_ne, Hdom in Hlk by done. discriminate Hlk.
Qed.

(** C2: a running timer with exactly the two subtimers [i] and [j],
    neither stopped yet.  In either order, the first [StopSubTimer] returns
    the elapsed time and only rewrites its subtimer: the timer is still
    [Running].  With [stopOnSubtimersFinish] set, the second call ends in
    the timer that [StopTimer], returning the nil error, makes of the
    updated one: its state is [Stopped].  With the switch off the second
    call, too, only rewrites its subtimer, and the timer stays [Running]. *)
Theorem C2_stopping_both_subtimers
    (t : Timer) (i j : Z) (si sj : subtimer) :
  tState t = Running → tickers_ready t →
  i ≠ j → subtimers t = {[ i := si; j := sj ]} →
  state si ≠ Stopped → state sj ≠ Stopped →
  (StopSubTimer i t = Ok (elapsed t, None) (stopped_at i t) [] ∧
   tState (stopped_at i t) = Running ∧
   if stopOnSubtimersFinish t then
     ∃ t', StopTimer (stopped_at j (stopped_at i t)) = Ok None t' [] ∧
           StopSubTimer j (stopped_at i t) = Ok (elapsed t, None) t' [] ∧
           tState t' = Stopped
   else
     StopSubTimer j (stopped_at i t) =
       Ok (elapsed t, None) (stopped_at j (stopped_at i t)) [] ∧
     tState (stopped_at j (stopped_at i t)) = Running) ∧
  (StopSubTimer j t = Ok (elapsed t, None) (stopped_at j t) [] ∧
   tState (stopped_at j t) = Running ∧
   if stopOnSubtimersFinish t then
     ∃ t', StopTimer (stopped_at i (stopped_at j t)) = Ok None t' [] ∧
           StopSubTimer i (stopped_at j t) = Ok (elapsed t, None) t' [] ∧
           tState t' = Stopped
   else
     StopSubTimer i (stopped_at j t) =
       Ok (elapsed t, None) (stopped_at i (stopped_at j t)) [] ∧
     tState (stopped_at i (stopped_at j t)) = Running).
Proof.
  intros Hr Hw Hne Hm Hsi Hsj.
  assert (Hi : subtimers t !! i = Some si)
    by (rewrite Hm; apply lookup_insert_eq).
  assert (Hj : subtimers t !! j = Some sj)
    by (rewrite Hm, lookup_insert_ne by done; apply lookup_singleton_eq).
  assert (Hdom : ∀ k, k ≠ i → k ≠ j → subtimers t !! k = None).
  { intros k Hki Hkj.
    rewrite Hm, lookup_insert_ne by done. by apply lookup_singleton_ne. }
  split.
  - by apply (StopSubTimer_both t i j si sj).
  - apply (StopSubTimer_both t j i sj si); try done.
    intros k Hkj Hki. by apply Hdom.
Qed.

Lemma C2_witness :
  (∃ t', StopSubTimer 2 (stopped_at 1 (both_running true)) =
           Ok (40000000, None) t' [] ∧
         tState t' = Stopped) ∧
  (StopSubTimer 1 (stopped_at 2 (both_running false)) =
     Ok (40000000, None)
        (stopped_at 1 (stopped_at 2 (both_running false)))
        [] ∧
   tState (stopped_at 1 (stopped_at 2 (both_running false))) =
     Running).
Proof.
  split.
  - destruct (C2_stopping_both_subtimers
                (both_running true) 1 2
                (mkSubtimer 0 Running) (mkSubtimer 0 Running))
      as [(_ & _ & t' & _ & H & Hs) _].
    + reflexivity.
    + intros _. split; eexists; reflexivity.
    + discriminate.
    + reflexivity.
    + discriminate.
    + discriminate.
    + exists t'. split; assumption.
  - destruct (C2_stopping_both_subtimers
                (both_running false) 1 2
                (mkSubtimer 0 Running) (mkSubtimer 0 Running))
      as [_ (_ & _ & H)].
    + reflexivity.
    + intros _. split; eexists; reflexivity.
    + discriminate.
    + reflexivity.
    + discriminate.
    + discriminate.
    + exact H.
Defined.

(** ** Elapsed time (C4, C8) *)

Lemma Sub_exact (t u : time.Time) :
  minDuration ≤ t - u ≤ maxDuration → Sub t u = t - u.
Proof.
  intros H. unfold Sub.
  destruct (Z.ltb_spec (t - u) minDuration); [lia|].
  destruct (Z.ltb_spec maxDuration (t - u)); [lia | done].
Qed.


Lemma timerLoop_tick_running now t :
  tState t = Running →
  timerLoop_tick now t =
    Ok (Some (Sub now (startTime t))) (set_elapsed (Sub now (startTime t)) t)
       [].
Proof. intros H. unfold timerLoop_tick. run_M. by rewrite H. Qed.

Lemma timerLoop_tick_not_running now t :
  tState t ≠ Running → timerLoop_tick now t = Ok None t [].
Proof.
  intros H. unfold timerLoop_tick. run_M. by destruct (tState t).
Qed.

Lemma timerLoop_running ticks :
  ∀ t, tState t = Running →
    ∃ t', timerLoop ticks t =
            Ok ((λ now, Sub now (startTime t)) <$> ticks) t' [] ∧
          tState t' = Running ∧ startTime t' = startTime t ∧
          elapsed t' =
            default (elapsed t)
              (last ((λ now, Sub now (startTime t)) <$> ticks)).
Proof.
  induction ticks as [|now rest IH]; intros t Hr; cbn.
  - by exists t.
  - run_M. rewrite (timerLoop_tick_running now t Hr).
    destruct (IH (set_elapsed (Sub now (startTime t)) t) Hr)
      as (t' & Hrun & Hs & Hst & He).
    cbn in Hrun, Hst, He. rewrite Hrun. exists t'.
    repeat split; try done.
    rewrite He, last_cons. by destruct (last _).
Qed.

Lemma timerLoop_not_running ticks t :
  tState t ≠ Running → timerLoop ticks t = Ok [] t [].
Proof.
  intros H. induction ticks as [|now rest IH]; cbn; [done|].
  run_M. by rewrite (timerLoop_tick_not_running now t H), IH.
Qed.



Lemma pause_resume_tick (t : Timer) (a b c : Z) :
  tState t = Running →
  0 ≤ b ≤ maxDuration → minDuration ≤ a + c ≤ maxDuration →
  ∃ t',
    (e1 ← PauseTimer (startTime t + a);
     e2 ← ResumeTimer (startTime t + a + b);
     v ← timerLoop_tick (startTime t + a + b + c);
     mret (e1, e2, v)) t =
      Ok (None, None, Some (a + c)) t' [go_timerLoop] ∧
    elapsed t' = a + c ∧ startTime t' = startTime t + b ∧
    tState t' = Running.
Proof.
  intros Hr Hb Hac. run_M.
  rewrite (PauseTimer_valid _ t Hr).
  rewrite ResumeTimer_paused by done. cbn.
  rewrite timerLoop_tick_running by done. cbn.
  unfold Since, Add.
  rewrite (Sub_exact (startTime t + a + b) (startTime t + a))
    by (unfold minDuration, maxDuration in *; lia).
  rewrite Sub_exact by (unfold minDuration, maxDuration in *; lia).
  replace (startTime t + a + b + c -
           (startTime t + (startTime t + a + b - (startTime t + a))))
    with (a + c) by lia.
  eexists. split; [reflexivity|]. cbn.
  split; [done|]. split; [f_equal; lia | done].
Qed.

(** C4: [ResumeTimer] on a paused timer moves [startTime] forward by the
    time spent paused, [now - pauseTime] (a [Duration], so within its
    range), sets the state to [Running] and spawns the loop.  Hence a
    timer started at [T0], paused [a] later, resumed [b] later and
    sampled by a tick [c] later reports the elapsed time [a + c]. *)
Theorem C4_resume_excludes_the_pause :
  (∀ (t : Timer) (now : time.Time),
     tState t = Paused →
     minDuration ≤ now - pauseTime t ≤ maxDuration →
     ResumeTimer now t =
       Ok None
          (set_tState Running
             (set_startTime (startTime t + (now - pauseTime t)) t))
          [go_timerLoop]) ∧
  (∀ (t : Timer) (T0 : time.Time) (a b c : Z),
     tState t = Reset →
     0 < wrap64 (tickerInterval t * Millisecond) →
     0 < wrap64 (updateInterval t * Millisecond) →
     0 ≤ a → 0 ≤ b ≤ maxDuration → 0 ≤ c →
     a + c ≤ maxDuration →
     ∃ t',
       (e0 ← StartTimer T0;
        e1 ← PauseTimer (T0 + a);
        e2 ← ResumeTimer (T0 + a + b);
        v ← timerLoop_tick (T0 + a + b + c);
        mret (e0, e1, e2, v)) t =
         Ok (None, None, None, Some (a + c)) t'
            [go_startSubTimers; go_timerLoop; go_timerLoop] ∧
       elapsed t' = a + c ∧ tState t' = Running).
Proof.
  split.
  - intros t now Hp Hd. rewrite ResumeTimer_paused by done.
    unfold Since, Add. by rewrite Sub_exact.
  - intros t T0 a b c Hs Hk Hu Ha Hb Hc Hac.
    pose proof (StartTimer_valid T0 t Hs Hk Hu) as Hstart.
    match type of Hstart with _ = Ok _ ?t1 _ => set (t1' := t1) in * end.
    destruct (pause_resume_tick t1' a b c) as (t' & Hrun & He & _ & Hr).
    { done. } { done. } { unfold minDuration. lia. }
    exists t'. split; [|done].
    revert Hrun. run_M. rewrite Hstart. cbn.
    destruct (PauseTimer (T0 + a) t1') as [e1 t2 g1|]; [|done].
    destruct (ResumeTimer (T0 + a + b) t2) as [e2 t3 g2|]; [|done].
    destruct (timerLoop_tick (T0 + a + b + c) t3) as [v t4 g3|]; [|done].
    intros [= -> -> -> -> Hg]. by rewrite Hg.
Qed.

Lemma C4_witness :
  ResumeTimer 900
      (set_pauseTime 400 (set_tState Paused running_example)) =
    Ok None
       (set_tState Running
          (set_startTime (0 + (900 - 400))
             (set_pauseTime 400 (set_tState Paused running_example))))
       [go_timerLoop] ∧
  ∃ t',
    (e0 ← StartTimer 100;
     e1 ← PauseTimer (100 + 300);
     e2 ← ResumeTimer (100 + 300 + 500);
     v ← timerLoop_tick (100 + 300 + 500 + 20);
     mret (e0, e1, e2, v)) (two_subtimers Reset Reset Reset false) =
      Ok (None, None, None, Some (300 + 20)) t'
         [go_startSubTimers; go_timerLoop; go_timerLoop] ∧
    elapsed t' = 300 + 20 ∧ tState t' = Running.
Proof.
  split.
  - apply (proj1 C4_resume_excludes_the_pause
             (set_pauseTime 400 (set_tState Paused running_example)) 900).
    + reflexivity.
    + vm_compute. split; discriminate.
  - apply (proj2 C4_resume_excludes_the_pause
             (two_subtimers Reset Reset Reset false) 100 300 500 20).
    + reflexivity.
    + reflexivity.
    + reflexivity.
    + lia.
    + vm_compute. split; discriminate.
    + lia.
    + vm_compute. discriminate.
Defined.




(** ** The tickers of a timer built through its methods *)

(** X2: whatever calls and goroutine turns are made on the timer [New]
    returns, if none of them panics the tickers exist in the states
    [Running] and [Paused]: [StopTimer] never dereferences [nil] there. *)
Theorem tickers_ready_from_New (cs : list call) (t : Timer)
    (gs : list goroutine) :
  perform_all cs New = Ok tt t gs → tickers_ready t.
Proof.
  intros H. eapply perform_all_tickers_ready; [exact H|].
  apply New_tickers_ready.
Qed.

Lemma tickers_ready_from_New_witness : tickers_ready restarted_example.
Proof.
  apply (tickers_ready_from_New restart_calls restarted_example
           [go_startSubTimers; go_timerLoop; go_startSubTimers; go_timerLoop]).
  vm_compute. reflexivity.
Defined.

(** ** One call, one step *)

Lemma all_stopped_dec (m : gmap Z subtimer) : Decision (all_stopped m).
Proof.
  unfold all_stopped. apply map_Forall_dec. intros k s. solve_decision.
Defined.

Lemma set_subtimers_id t : set_subtimers (subtimers t) t = t.
Proof. by destruct t. Qed.

Lemma checkSubTimerFinish_not t :
  ¬ all_stopped (subtimers t) → checkSubTimerFinish t = Ok false t [].
Proof.
  intros H. apply map_not_Forall in H as (k & s & Hk & Hs); [|apply _].
  by eapply checkSubTimerFinish_false.
Qed.

Lemma StopTimer_panics t :
  tState t = Running ∨ tState t = Paused →
  ticker t = None ∨ updateTicker t = None → StopTimer t = Panic.
Proof.
  intros Hs Hk. unfold StopTimer, checkValidState, Ticker_Stop. run_M.
  destruct Hs as [-> | ->]; cbn;
    destruct (ticker t); cbn; destruct (updateTicker t); cbn;
    destruct Hk; done.
Qed.

Lemma StartTimer_panics now t :
  tState t = Reset →
  wrap64 (tickerInterval t * Millisecond) ≤ 0
  ∨ wrap64 (updateInterval t * Millisecond) ≤ 0 →
  StartTimer now t = Panic.
Proof.
  intros Hs Hk. unfold StartTimer, checkValidState, NewTicker. run_M.
  rewrite Hs. cbn.
  destruct (Z.leb_spec (wrap64 (tickerInterval t * Millisecond)) 0); [done|].
  cbn.
  destruct (Z.leb_spec (wrap64 (updateInterval t * Millisecond)) 0); [done|].
  lia.
Qed.

Lemma perform_step c t t' gs :
  perform c t = Ok tt t' gs → t' = t ∨ step t t'.
Proof.
  destruct c; cbn; run_M.
  - unfold SetUpdateInterval. run_M.
    destruct (tState t) eqn:Hs; cbn; try (intros [= <- <-]; by left).
    destruct (Z.ltb_spec v 0); cbn; [intros [= <- <-]; by left|].
    destruct (Z.eqb_spec v 0); cbn; intros [= <- <-]; right.
    + by apply step_SetUpdateInterval.
    + apply step_SetUpdateInterval; [done | lia].
  - destruct (decide (tState t = Reset)) as [Hs | Hs].
    + destruct (Z.le_gt_cases (wrap64 (tickerInterval t * Millisecond)) 0).
      { rewrite StartTimer_panics by auto. done. }
      destruct (Z.le_gt_cases (wrap64 (updateInterval t * Millisecond)) 0).
      { rewrite StartTimer_panics by auto. done. }
      rewrite StartTimer_valid by (done || lia).
      intros [= <- <-]. right. apply step_StartTimer; (done || lia).
    + rewrite StartTimer_invalid by done. intros [= <- <-]. by left.
  - destruct (decide (tState t = Running ∨ tState t = Paused)) as [Hs | Hs].
    + destruct (ticker t) as [k1|] eqn:H1;
        [|by rewrite StopTimer_panics by auto].
      destruct (updateTicker t) as [k2|] eqn:H2;
        [|by rewrite StopTimer_panics by auto].
      rewrite (StopTimer_valid t k1 k2) by done.
      intros [= <- <-]. right. by apply step_StopTimer.
    + rewrite StopTimer_invalid by tauto. intros [= <- <-]. by left.
  - destruct (decide (tState t = Stopped)) as [Hs | Hs].
    + rewrite ResetTimer_valid by done. intros [= <- <-]. right.
      by apply step_ResetTimer.
    + rewrite ResetTimer_invalid by done. intros [= <- <-]. by left.
  - destruct (decide (tState t = Running)) as [Hs | Hs].
    + rewrite PauseTimer_valid by done. intros [= <- <-]. right.
      by apply step_PauseTimer.
    + rewrite PauseTimer_invalid by done. intros [= <- <-]. by left.
  - destruct (decide (tState t = Paused)) as [Hs | Hs].
    + rewrite ResumeTimer_paused by done. intros [= <- <-]. right.
      by apply step_ResumeTimer.
    + rewrite ResumeTimer_not_paused by done. intros [= <- <-]. by left.
  - unfold AddSubTimer. run_M.
    destruct (tState t) eqn:Hs; cbn; try (intros [= <- <-]; by left).
    destruct (subtimers t !! id) eqn:Hid; cbn; intros [= <- <-];
      [by left | right; by apply step_AddSubTimer].
  - destruct (subtimers t !! id) as [s|] eqn:Hid.
    + rewrite (StopSubTimer_known id t s Hid).
      destruct (stopOnSubtimersFinish t) eqn:Hf; cbn.
      * destruct (all_stopped_dec (subtimers (stopped_at id t))) as [Ha | Ha].
        -- rewrite checkSubTimerFinish_true by done.
           destruct (decide (tState t = Running ∨ tState t = Paused))
             as [Hs | Hs].
           ++ destruct (ticker t) as [k1|] eqn:H1;
                [|by rewrite StopTimer_panics by auto].
              destruct (updateTicker t) as [k2|] eqn:H2;
                [|by rewrite StopTimer_panics by auto].
              rewrite (StopTimer_valid (stopped_at id t) k1 k2) by done.
              intros [= <- <-]. right.
              by eapply step_StopSubTimer_last.
           ++ rewrite StopTimer_invalid by (cbn; tauto).
              intros [= <- <-]. right.
              eapply step_StopSubTimer; [done | tauto].
        -- rewrite checkSubTimerFinish_not by done.
           intros [= <- <-]. right. eapply step_StopSubTimer; eauto.
      * intros [= <- <-]. right. eapply step_StopSubTimer; eauto.
    + rewrite (StopSubTimer_unknown id t Hid). intros [= <- <-]. by left.
  - unfold startSubTimers. run_M.
    destruct (Z.of_nat (size (subtimers t)) <=? 0); intros [= <- <-];
      [by left | right; apply step_startSubTimers].
  - destruct (decide (tState t = Running)) as [Hs | Hs].
    + rewrite timerLoop_tick_running by done. intros [= <- <-]. right.
      by apply step_timerLoop.
    + rewrite timerLoop_tick_not_running by done. intros [= <- <-]. by left.
Qed.

Lemma step_perform t t' : step t t' → ∃ c gs, perform c t = Ok tt t' gs.
Proof.
  destruct 1 as [t v Hs Hv | t now Hs H1 H2 | t k1 k2 Hs H1 H2 | t Hs
                 | t now Hs | t now Hs | t id Hs Hid | t id s Hid Hc
                 | t id s k1 k2 Hid Hf Ha Hs H1 H2 | t | t now Hs].
  - exists (call_SetUpdateInterval v), []. cbn. run_M.
    unfold SetUpdateInterval. run_M. rewrite Hs. cbn.
    destruct (Z.ltb_spec v 0); [lia|].
    destruct (Z.eqb_spec v 0); [lia | done].
  - exists (call_StartTimer now), [go_startSubTimers; go_timerLoop].
    cbn. run_M. by rewrite StartTimer_valid.
  - exists call_StopTimer, []. cbn. run_M.
    by rewrite (StopTimer_valid t k1 k2).
  - exists call_ResetTimer, []. cbn. run_M. by rewrite ResetTimer_valid.
  - exists (call_PauseTimer now), []. cbn. run_M.
    by rewrite PauseTimer_valid.
  - exists (call_ResumeTimer now), [go_timerLoop]. cbn. run_M.
    by rewrite ResumeTimer_paused.
  - exists (call_AddSubTimer id), []. cbn. run_M.
    unfold AddSubTimer. run_M. by rewrite Hs, Hid.
  - exists (call_StopSubTimer id), []. cbn. run_M.
    rewrite (StopSubTimer_known id t s Hid).
    destruct (stopOnSubtimersFinish t) eqn:Hf; cbn; [|done].
    destruct (all_stopped_dec (subtimers (stopped_at id t))) as [Ha | Ha].
    + rewrite checkSubTimerFinish_true by done.
      destruct Hc as [Hc | [Hc | Hc]]; [done.. |].
      by rewrite StopTimer_invalid by (cbn; tauto).
    + by rewrite checkSubTimerFinish_not.
  - exists (call_StopSubTimer id), []. cbn. run_M.
    rewrite (StopSubTimer_known id t s Hid), Hf.
    rewrite checkSubTimerFinish_true by done.
    by rewrite (StopTimer_valid (stopped_at id t) k1 k2).
  - exists turn_startSubTimers, []. cbn. unfold startSubTimers. run_M.
    destruct (Z.leb_spec (Z.of_nat (size (subtimers t))) 0) as [H | H];
      [|done].
    assert (subtimers t = ∅) as Hm by (apply map_size_empty_iff; lia).
    rewrite Hm, fmap_empty, <- Hm. by rewrite set_subtimers_id.
  - exists (turn_timerLoop now), []. cbn. run_M.
    by rewrite timerLoop_tick_running.
Qed.

Lemma perform_all_steps cs :
  ∀ t t' gs, perform_all cs t = Ok tt t' gs → rtc step t t'.
Proof.
  induction cs as [|c cs IH]; intros t t' gs; cbn.
  - intros [= <- <-]. done.
  - run_M. destruct (perform c t) as [[] t1 gs1|] eqn:Hc; [|done].
    destruct (perform_all cs t1) as [[] t2 gs2|] eqn:Hcs; [|done].
    intros [= <- <-].
    destruct (perform_step c t t1 gs1 Hc) as [-> | Hst]; [by eapply IH|].
    eapply rtc_l; [exact Hst | by eapply IH].
Qed.

(** *** What a step keeps *)

Lemma step_state t t' :
  step t t' → tState t' = tState t ∨ transition (tState t) (tState t').
Proof.
  destruct 1; cbn; auto;
    repeat match goal with
           | H : tState _ = _ |- _ => rewrite H
           | H : _ ∨ _ |- _ => destruct H
           end; cbn; auto.
Qed.

Lemma step_switches t t' :
  step t t' →
  allowResumeAfterStop t' = allowResumeAfterStop t ∧
  continueCountingWhenStopped t' = continueCountingWhenStopped t ∧
  stopOnSubtimersFinish t' = stopOnSubtimersFinish t ∧
  tickerInterval t' = tickerInterval t.
Proof. by destruct 1. Qed.

Lemma step_registry t t' :
  step t t' →
  dom (subtimers t') = dom (subtimers t)
  ∨ (tState t = Reset ∧
     ∃ id, subtimers t !! id = None ∧
           subtimers t' = <[id := mkSubtimer 0 Reset]> (subtimers t))
  ∨ (tState t = Stopped ∧ tState t' = Reset ∧ subtimers t' = ∅).
Proof.
  destruct 1; cbn; auto.
  - right. left. eauto.
  - left. apply dom_insert_lookup_L. eauto.
  - left. apply dom_insert_lookup_L. eauto.
  - left. apply dom_fmap_L.
Qed.

Lemma step_subtimers_ok t t' :
  step t t' →
  map_Forall (λ _ s, subtimer_ok s) (subtimers t) →
  map_Forall (λ _ s, subtimer_ok s) (subtimers t').
Proof.
  destruct 1; cbn; auto; intros Hok.
  - apply map_Forall_empty.
  - apply map_Forall_insert_2; [done | done].
  - apply map_Forall_insert_2; [|done]. split; cbn; done.
  - apply map_Forall_insert_2; [|done]. split; cbn; done.
  - intros k s Hk. apply lookup_fmap_Some in Hk as (s0 & <- & Hk).
    split; cbn; done.
Qed.

Lemma step_intervals t t' :
  step t t' →
  0 < updateInterval t ∧
  (∀ k, ticker t = Some k →
        period k = wrap64 (tickerInterval t * Millisecond)) ∧
  (∀ k, updateTicker t = Some k → 0 < period k) →
  0 < updateInterval t' ∧
  (∀ k, ticker t' = Some k →
        period k = wrap64 (tickerInterval t' * Millisecond)) ∧
  (∀ k, updateTicker t' = Some k → 0 < period k).
Proof.
  destruct 1; cbn; try done; intros (Hu & Hk & Hk');
    (split; [done || lia|]); split; intros k Hx; simplify_eq; cbn; eauto.
Qed.

Lemma steps_invariant (P : Timer → Prop) :
  (∀ t t', step t t' → P t → P t') →
  ∀ t t', rtc step t t' → P t → P t'.
Proof. intros Hstep t t' H. induction H; eauto. Qed.

Lemma steps_switches t t' :
  rtc step t t' →
  allowResumeAfterStop t' = allowResumeAfterStop t ∧
  continueCountingWhenStopped t' = continueCountingWhenStopped t ∧
  stopOnSubtimersFinish t' = stopOnSubtimersFinish t ∧
  tickerInterval t' = tickerInterval t.
Proof.
  induction 1 as [|t t1 t2 Hst _ IH]; [done|].
  destruct (step_switches _ _ Hst) as (-> & -> & -> & ->) in IH. exact IH.
Qed.

(** ** The timer as a transition system *)

(** X3: a call of a method, or a turn of a goroutine, that does not panic
    leaves the timer as it was or changes it by one [step]; and every
    [step], like leaving the timer as it was, is what some call does. *)
Theorem one_call_one_step (t t' : Timer) :
  (∃ c gs, perform c t = Ok tt t' gs) ↔ t' = t ∨ step t t'.
Proof.
  split.
  - intros (c & gs & H). by eapply perform_step.
  - intros [-> | H]; [|by apply step_perform].
    destruct (decide (tState t = Reset)) as [Hs | Hs].
    + exists (call_PauseTimer 0), []. cbn. run_M.
      rewrite PauseTimer_invalid; [done|]. rewrite Hs. discriminate.
    + exists (call_StartTimer 0), []. cbn. run_M.
      by rewrite StartTimer_invalid.
Qed.

Lemma one_call_one_step_witness :
  ∃ c gs,
    perform c running_example =
      Ok tt (set_pauseTime 7 (set_tState Paused running_example)) gs.
Proof.
  apply (proj2 (one_call_one_step running_example
                  (set_pauseTime 7 (set_tState Paused running_example)))).
  right. apply step_PauseTimer. reflexivity.
Defined.

(** X4: whatever a call does, the state it leaves is the state it found
    or one edge of the state machine further: [Stopped] to [Reset],
    [Reset] to [Running], [Running] to [Paused] or [Stopped], [Paused] to
    [Running] or [Stopped]. *)
Theorem calls_follow_the_state_graph
    (c : call) (t t' : Timer) (gs : list goroutine) :
  perform c t = Ok tt t' gs →
  tState t' = tState t ∨ transition (tState t) (tState t').
Proof.
  intros H. destruct (perform_step c t t' gs H) as [-> | Hst]; [by left|].
  by apply step_state.
Qed.

Lemma calls_follow_the_state_graph_witness :
  tState (halted (mkTicker 10000000 true) (mkTicker 10000000 true)
            (stopped_at 2 (stopped_at 1 (both_running true)))) =
    tState (stopped_at 1 (both_running true))
  ∨ transition (tState (stopped_at 1 (both_running true)))
      (tState (halted (mkTicker 10000000 true) (mkTicker 10000000 true)
                 (stopped_at 2 (stopped_at 1 (both_running true))))).
Proof.
  apply (calls_follow_the_state_graph (call_StopSubTimer 2)
           (stopped_at 1 (both_running true)) _ []).
  vm_compute. reflexivity.
Defined.

(** X5: no sequence of calls writes the three switches or the ticker
    interval: they are what they were when the timer was made. *)
Theorem switches_are_never_written
    (cs : list call) (t t' : Timer) (gs : list goroutine) :
  perform_all cs t = Ok tt t' gs →
  allowResumeAfterStop t' = allowResumeAfterStop t ∧
  continueCountingWhenStopped t' = continueCountingWhenStopped t ∧
  stopOnSubtimersFinish t' = stopOnSubtimersFinish t ∧
  tickerInterval t' = tickerInterval t.
Proof.
  intros H. by apply steps_switches, (perform_all_steps cs t t' gs).
Qed.

Lemma switches_are_never_written_witness :
  allowResumeAfterStop restarted_example = allowResumeAfterStop New ∧
  continueCountingWhenStopped restarted_example =
    continueCountingWhenStopped New ∧
  stopOnSubtimersFinish restarted_example = stopOnSubtimersFinish New ∧
  tickerInterval restarted_example = tickerInterval New.
Proof.
  apply (switches_are_never_written restart_calls New restarted_example
           [go_startSubTimers; go_timerLoop; go_startSubTimers; go_timerLoop]).
  vm_compute. reflexivity.
Defined.

(** X6: a call changes the set of registered identifiers in two ways
    only: on a timer in state [Reset] it may add one identifier that was
    free, bound to a subtimer in state [Reset] with time zero; on a stopped
    timer it may empty the registry, the timer then being in state
    [Reset].  So while the timer is running or paused the identifiers are
    fixed. *)
Theorem registry_changes (c : call) (t t' : Timer) (gs : list goroutine) :
  perform c t = Ok tt t' gs →
  dom (subtimers t') = dom (subtimers t)
  ∨ (tState t = Reset ∧
     ∃ id, subtimers t !! id = None ∧
           subtimers t' = <[id := mkSubtimer 0 Reset]> (subtimers t))
  ∨ (tState t = Stopped ∧ tState t' = Reset ∧ subtimers t' = ∅).
Proof.
  intros H. destruct (perform_step c t t' gs H) as [-> | Hst]; [by left|].
  by apply step_registry.
Qed.

Lemma registry_changes_witness :
  dom (subtimers (stopped_at 1 (both_running true))) =
    dom (subtimers (both_running true))
  ∨ (tState (both_running true) = Reset ∧
     ∃ id, subtimers (both_running true) !! id = None ∧
           subtimers (stopped_at 1 (both_running true)) =
             <[id := mkSubtimer 0 Reset]> (subtimers (both_running true)))
  ∨ (tState (both_running true) = Stopped ∧
     tState (stopped_at 1 (both_running true)) = Reset ∧
     subtimers (stopped_at 1 (both_running true)) = ∅).
Proof.
  apply (registry_changes (call_StopSubTimer 1) (both_running true) _ []).
  vm_compute. reflexivity.
Defined.

(** X7: on a timer built from [New] by calls and goroutine turns, no
    subtimer is ever in state [Paused], and a subtimer in state [Reset]
    has time zero. *)
Theorem subtimers_from_New
    (cs : list call) (t : Timer) (gs : list goroutine) :
  perform_all cs New = Ok tt t gs →
  ∀ id s, subtimers t !! id = Some s →
    state s ≠ Paused ∧ (state s = Reset → Time s = 0).
Proof.
  intros H. apply perform_all_steps in H.
  assert (Hok : map_Forall (λ _ s, subtimer_ok s) (subtimers t)).
  { apply (steps_invariant
             (λ t, map_Forall (λ _ s, subtimer_ok s) (subtimers t))
             step_subtimers_ok New t H).
    apply map_Forall_empty. }
  intros id s Hid. exact (Hok id s Hid).
Qed.

Lemma subtimers_from_New_witness :
  state (mkSubtimer 40000000 Stopped) ≠ Paused ∧
  (state (mkSubtimer 40000000 Stopped) = Reset →
   Time (mkSubtimer 40000000 Stopped) = 0).
Proof.
  apply (subtimers_from_New registry_calls (stopped_at 1 (both_running false))
           [go_startSubTimers; go_timerLoop] ltac:(vm_compute; reflexivity)
           1 (mkSubtimer 40000000 Stopped)).
  reflexivity.
Defined.

(** X8: on a timer built from [New], the update interval is positive and
    the ticker interval is the default 10; a ticker the loop listens on has
    the period 10 ms whatever [SetUpdateInterval] stored, and the second
    ticker has a positive period. *)
Theorem intervals_from_New
    (cs : list call) (t : Timer) (gs : list goroutine) :
  perform_all cs New = Ok tt t gs →
  0 < updateInterval t ∧
  tickerInterval t = defaultTickerInterval ∧
  (∀ k, ticker t = Some k → period k = 10 * Millisecond) ∧
  (∀ k, updateTicker t = Some k → 0 < period k).
Proof.
  intros H. apply perform_all_steps in H.
  destruct (steps_switches New t H) as (_ & _ & _ & Ht).
  assert (Hi : 0 < updateInterval t ∧
    (∀ k, ticker t = Some k →
          period k = wrap64 (tickerInterval t * Millisecond)) ∧
    (∀ k, updateTicker t = Some k → 0 < period k)).
  { apply (steps_invariant
             (λ t, 0 < updateInterval t ∧
                (∀ k, ticker t = Some k →
                      period k = wrap64 (tickerInterval t * Millisecond)) ∧
                (∀ k, updateTicker t = Some k → 0 < period k))
             step_intervals New t H).
    cbn. repeat split; done. }
  destruct Hi as (Hu & Hk & Hk'). rewrite Ht in Hk.
  repeat split; done.
Qed.

Lemma intervals_from_New_witness :
  0 < updateInterval retimed_example ∧
  tickerInterval retimed_example = defaultTickerInterval ∧
  (∀ k, ticker retimed_example = Some k → period k = 10 * Millisecond) ∧
  (∀ k, updateTicker retimed_example = Some k → 0 < period k).
Proof.
  apply (intervals_from_New retimed_calls retimed_example
           [go_startSubTimers; go_timerLoop]).
  vm_compute. reflexivity.
Defined.

(** ** More on the subtimers *)

Lemma startSubTimers_eq (t : Timer) :
  startSubTimers t =
    Ok tt
       (set_subtimers ((λ s, mkSubtimer (Time s) Running) <$> subtimers t) t)
       [].
Proof.
  unfold startSubTimers. run_M.
  destruct (Z.leb_spec (Z.of_nat (size (subtimers t))) 0) as [H | H];
    [|done].
  assert (subtimers t = ∅) as Hm by (apply map_size_empty_iff; lia).
  rewrite Hm, fmap_empty, <- Hm. by rewrite set_subtimers_id.
Qed.

(** X9: [startSubTimers] never fails and touches nothing but the
    registry; afterwards every registered subtimer, one stopped before
    included, is in state [Running] with the time it had, under the same
    identifier. *)
Theorem startSubTimers_restarts_every_subtimer (t : Timer) :
  ∃ t', startSubTimers t = Ok tt t' [] ∧
        set_subtimers (subtimers t) t' = t ∧
        (∀ id, subtimers t' !! id =
                 (λ s, mkSubtimer (Time s) Running) <$> subtimers t !! id) ∧
        (∀ id s, subtimers t' !! id = Some s → state s = Running).
Proof.
  rewrite startSubTimers_eq. eexists. split; [done|].
  split; [by rewrite set_subtimers_twice, set_subtimers_id|]. cbn. split.
  - intros id. apply lookup_fmap.
  - intros id s Hs. apply lookup_fmap_Some in Hs as (s0 & <- & _). done.
Qed.

(** X10: [checkSubTimerFinish] leaves the timer as it is and answers
    [true] exactly when no registered subtimer is in a state other than
    [Stopped]: so it answers [true] on an empty registry. *)
Theorem checkSubTimerFinish_iff_all_stopped (t : Timer) :
  ∃ b, checkSubTimerFinish t = Ok b t [] ∧
       (b = true ↔
        ∀ id s, subtimers t !! id = Some s → state s = Stopped).
Proof.
  destruct (all_stopped_dec (subtimers t)) as [Ha | Ha].
  - exists true. split; [by apply checkSubTimerFinish_true|]. done.
  - exists false. split; [by apply checkSubTimerFinish_not|].
    split; [done|]. intros H. by destruct Ha.
Qed.

(** X11: what [StopSubTimer] on a registered identifier does to the
    parent, for any number of subtimers.  If [stopOnSubtimersFinish] is
    set, every other subtimer is stopped and the timer is running or
    paused, the timer ends [Stopped] with both tickers stopped; in every
    other case only the subtimer is rewritten. *)
Theorem StopSubTimer_and_the_parent (t : Timer) (id : Z) (s : subtimer) :
  subtimers t !! id = Some s → tickers_ready t →
  ∃ t', StopSubTimer id t = Ok (elapsed t, None) t' [] ∧
    subtimers t' = <[id := mkSubtimer (elapsed t) Stopped]> (subtimers t) ∧
    ((stopOnSubtimersFinish t = true ∧
      (∀ k s', k ≠ id → subtimers t !! k = Some s' → state s' = Stopped) ∧
      (tState t = Running ∨ tState t = Paused) →
      tState t' = Stopped ∧
      (∀ k, ticker t' = Some k → firing k = false) ∧
      (∀ k, updateTicker t' = Some k → firing k = false)) ∧
     (stopOnSubtimersFinish t = false
      ∨ (∃ k s', k ≠ id ∧ subtimers t !! k = Some s' ∧ state s' ≠ Stopped)
      ∨ (tState t ≠ Running ∧ tState t ≠ Paused) →
      t' = stopped_at id t)).
Proof.
  intros Hid Hw.
  assert (Hall : all_stopped (subtimers (stopped_at id t)) ↔
            ∀ k s', k ≠ id → subtimers t !! k = Some s' → state s' = Stopped).
  { cbn. split.
    - intros Ha k s' Hk Hs'. apply (Ha k s'). by rewrite lookup_insert_ne.
    - intros Ha k s' Hk. destruct (decide (k = id)) as [-> | Hne].
      + rewrite lookup_insert_eq in Hk. by simplify_eq.
      + rewrite lookup_insert_ne in Hk by done. by eapply Ha. }
  rewrite (StopSubTimer_known id t s Hid).
  destruct (stopOnSubtimersFinish t) eqn:Hf; cbn.
  - destruct (all_stopped_dec (subtimers (stopped_at id t))) as [Ha | Ha].
    + rewrite checkSubTimerFinish_true by done.
      destruct (decide (tState t = Running ∨ tState t = Paused)) as [Hs | Hs].
      * destruct (Hw Hs) as [[k1 H1] [k2 H2]].
        rewrite (StopTimer_valid (stopped_at id t) k1 k2) by done.
        eexists. split; [done|]. split; [done|]. split.
        -- intros _. cbn. split; [done|]. split; by intros k [= <-].
        -- intros [? | [(k & s' & Hk & Hs' & Hne) | [? ?]]];
             [done | | tauto].
           destruct Hne. exact (proj1 Hall Ha k s' Hk Hs').
      * rewrite StopTimer_invalid by (cbn; tauto).
        eexists. split; [done|]. split; [done|]. split; [|done].
        intros (_ & _ & ?). done.
    + rewrite checkSubTimerFinish_not by done.
      eexists. split; [done|]. split; [done|]. split; [|done].
      intros (_ & ? & _). destruct Ha. by apply Hall.
  - eexists. split; [done|]. split; [done|]. split; [|done].
    intros (? & _). done.
Qed.

Lemma StopSubTimer_and_the_parent_witness :
  ∃ t', StopSubTimer 1 (two_subtimers Paused Running Stopped true) =
          Ok (40000000, None) t' [] ∧
        tState t' = Stopped.
Proof.
  destruct (StopSubTimer_and_the_parent
              (two_subtimers Paused Running Stopped true) 1
              (mkSubtimer 0 Running))
    as (t' & Hrun & _ & Hlast & _).
  - reflexivity.
  - intros _. split; eexists; reflexivity.
  - exists t'. split; [exact Hrun|]. apply Hlast.
    split; [reflexivity|]. split; [|right; reflexivity].
    intros k s' Hk Hs. cbn in Hs.
    rewrite lookup_insert_ne in Hs by done.
    apply lookup_singleton_Some in Hs as [_ <-]. reflexivity.
Defined.

(** X12: an identifier that is free on a timer in state [Reset] can be
    added once: the second [AddSubTimer] returns the duplicate error and
    changes nothing, and [StopSubTimer] then finds the subtimer and returns
    the elapsed time, leaving it stopped with that time.  Nothing else in
    the timer has changed. *)
Theorem AddSubTimer_then_StopSubTimer (t : Timer) (id : Z) :
  tState t = Reset → subtimers t !! id = None →
  (e1 ← AddSubTimer id;
   e2 ← AddSubTimer id;
   r ← StopSubTimer id;
   mret (e1, e2, r)) t =
    Ok (None, Some (Errorf "Subtimer with key %v already exists" [id]),
        (elapsed t, None))
       (set_subtimers
          (<[id := mkSubtimer (elapsed t) Stopped]> (subtimers t)) t) [].
Proof.
  intros Hs Hid. run_M.
  unfold AddSubTimer at 1. run_M. rewrite Hs, Hid. cbn.
  unfold AddSubTimer. run_M. rewrite Hs. cbn.
  rewrite lookup_insert_eq. cbn.
  erewrite StopSubTimer_known by (cbn; apply lookup_insert_eq).
  assert (Hstop : ∀ t1, tState t1 = Reset →
            StopTimer t1 =
              Ok (Some (Errorf "StopTimer called with invalid state" []))
                 t1 []).
  { intros t1 H1. apply StopTimer_invalid; rewrite H1; discriminate. }
  rewrite Hstop by done.
  unfold stopped_at. cbn. rewrite insert_insert_eq.
  destruct (stopOnSubtimersFinish t); cbn; [|done].
  unfold checkSubTimerFinish. run_M. rewrite set_subtimers_twice.
  by destruct (forallb _ _).
Qed.

Lemma AddSubTimer_then_StopSubTimer_witness :
  (e1 ← AddSubTimer 3;
   e2 ← AddSubTimer 3;
   r ← StopSubTimer 3;
   mret (e1, e2, r)) one_left =
    Ok (None, Some (Errorf "Subtimer with key %v already exists" [3]),
        (elapsed one_left, None))
       (set_subtimers
          (<[3 := mkSubtimer (elapsed one_left) Stopped]>
             (subtimers one_left)) one_left) [].
Proof.
  apply (AddSubTimer_then_StopSubTimer one_left 3); reflexivity.
Defined.

(** ** Intervals and tickers *)

Lemma wrap64_small (z : Z) : 0 ≤ z ≤ maxDuration → wrap64 z = z.
Proof.
  unfold wrap64, maxDuration. intros H.
  rewrite Z.mod_small by lia. lia.
Qed.

(** X13: [SetUpdateInterval] accepts every positive interval, but
    [StartTimer] multiplies it by a million in [int64].  From [New], an
    interval of at most 9223372036854 ms gives, after reset and start, a
    second ticker with that period, the loop's ticker keeping its 10 ms; an
    interval whose product wraps around to zero or below makes
    [StartTimer] panic in [time.NewTicker]. *)
Theorem accepted_interval_and_StartTimer (v : Z) (now : time.Time) :
  0 < v →
  (v ≤ maxIntervalMillis →
   (e1 ← SetUpdateInterval v;
    e2 ← ResetTimer;
    e3 ← StartTimer now;
    mret (e1, e2, e3)) New =
     Ok (None, None, None)
        (set_startTime now
           (set_updateTicker (Some (mkTicker (v * Millisecond) true))
              (set_ticker (Some (mkTicker (10 * Millisecond) true))
                 (set_tState Running (set_updateInterval v New)))))
        [go_startSubTimers; go_timerLoop]) ∧
  (wrap64 (v * Millisecond) ≤ 0 →
   (e1 ← SetUpdateInterval v;
    e2 ← ResetTimer;
    e3 ← StartTimer now;
    mret (e1, e2, e3)) New = Panic).
Proof.
  intros Hv.
  assert (Hset : SetUpdateInterval v New =
                   Ok None (set_updateInterval v New) []).
  { unfold SetUpdateInterval. run_M.
    destruct (Z.ltb_spec v 0); [lia|].
    destruct (Z.eqb_spec v 0); [lia | done]. }
  split; intros Hr; run_M; rewrite Hset; cbn;
    rewrite ResetTimer_valid by done; cbn.
  - rewrite StartTimer_valid; cbn.
    + rewrite (wrap64_small (v * Millisecond))
        by (unfold maxIntervalMillis, Millisecond, maxDuration in *; lia).
      done.
    + done.
    + done.
    + rewrite wrap64_small
        by (unfold maxIntervalMillis, Millisecond, maxDuration in *; lia).
      unfold Millisecond. lia.
  - rewrite StartTimer_panics; cbn; auto.
Qed.

Lemma accepted_interval_and_StartTimer_witness :
  (e1 ← SetUpdateInterval 250;
   e2 ← ResetTimer;
   e3 ← StartTimer 0;
   mret (e1, e2, e3)) New =
    Ok (None, None, None)
       (set_startTime 0
          (set_updateTicker (Some (mkTicker (250 * Millisecond) true))
             (set_ticker (Some (mkTicker (10 * Millisecond) true))
                (set_tState Running (set_updateInterval 250 New)))))
       [go_startSubTimers; go_timerLoop] ∧
  (e1 ← SetUpdateInterval 9223372036855;
   e2 ← ResetTimer;
   e3 ← StartTimer 0;
   mret (e1, e2, e3)) New = Panic.
Proof.
  split.
  - apply (proj1 (accepted_interval_and_StartTimer 250 0 ltac:(lia))).
    vm_compute. discriminate.
  - apply (proj2 (accepted_interval_and_StartTimer 9223372036855 0
                    ltac:(lia))).
    vm_compute. discriminate.
Defined.

(** ** A stopped timer *)

(** X14: a stopped timer ignores [StartTimer], [StopTimer], [PauseTimer],
    [ResumeTimer] (with or without [allowResumeAfterStop]), [AddSubTimer]
    and the turns of a loop still listening: any sequence of them leaves
    every field as it was and spawns nothing.  Only [ResetTimer],
    [SetUpdateInterval] and the subtimer writes get through. *)
Theorem stopped_timer_ignores (cs : list call) (t : Timer) :
  tState t = Stopped →
  forallb ignored_when_stopped cs = true →
  perform_all cs t = Ok tt t [].
Proof.
  intros Hs. induction cs as [|c cs IH]; cbn; [done|].
  intros [Hc Hcs]%andb_prop. run_M.
  assert (Hone : perform c t = Ok tt t []).
  { destruct c; try discriminate Hc; cbn; run_M.
    - rewrite StartTimer_invalid; [done | by rewrite Hs].
    - rewrite StopTimer_invalid; [done | by rewrite Hs..].
    - rewrite PauseTimer_invalid; [done | by rewrite Hs].
    - rewrite ResumeTimer_not_paused; [done | by rewrite Hs].
    - unfold AddSubTimer. run_M. by rewrite Hs.
    - rewrite timerLoop_tick_not_running; [done | by rewrite Hs]. }
  by rewrite Hone, IH.
Qed.

Lemma stopped_timer_ignores_witness :
  perform_all
    [call_StartTimer 5; turn_timerLoop 6; call_PauseTimer 7;
     call_ResumeTimer 8; call_StopTimer; call_AddSubTimer 1]
    resumable_example = Ok tt resumable_example [].
Proof.
  apply (stopped_timer_ignores
           [call_StartTimer 5; turn_timerLoop 6; call_PauseTimer 7;
            call_ResumeTimer 8; call_StopTimer; call_AddSubTimer 1]
           resumable_example); reflexivity.
Defined.

(** ** Any number of pauses *)

Lemma pause_cycles_run (cycles : list (Z * Z)) :
  ∀ (t : Timer) (now : time.Time),
    tState t = Running →
    Forall (λ ab, 0 ≤ ab.2 ≤ maxDuration) cycles →
    ∃ t', perform_all (pause_cycles now cycles) t =
            Ok tt t' (replicate (length cycles) go_timerLoop) ∧
          tState t' = Running ∧
          startTime t' = startTime t + paused cycles ∧
          elapsed t' = elapsed t ∧ subtimers t' = subtimers t.
Proof.
  induction cycles as [|[a b] rest IH]; intros t now Hs Hb; cbn.
  - exists t. repeat split; try done. unfold paused. cbn. lia.
  - apply Forall_cons in Hb as [Hb Hrest]. cbn in Hb. run_M.
    rewrite PauseTimer_valid by done. cbn.
    rewrite ResumeTimer_paused by done. cbn.
    unfold Since, Add.
    rewrite Sub_exact by (unfold minDuration, maxDuration in *; lia).
    match goal with
    | |- context [perform_all _ ?t1] =>
        destruct (IH t1 (now + a + b)) as (t' & Hrun & Hs' & Hst & He & Hm);
          [done | done |]
    end.
    rewrite Hrun. exists t'. cbn in Hst, He, Hm.
    repeat split; try done. unfold paused in *. cbn. lia.
Qed.

(** X15: a running timer is paused and resumed any number of times, each
    pause lasting [b] after a run of [a], and then sampled by a tick [c]
    after the last resume.  Every call succeeds, each resume spawns one
    more loop (none ever ends), [startTime] has moved forward by the total
    time paused, and the tick reports the time run before plus the runs
    and [c]: no pause is counted. *)
Theorem pauses_are_never_counted
    (t : Timer) (now : time.Time) (cycles : list (Z * Z)) (c : Z) :
  tState t = Running →
  Forall (λ ab, 0 ≤ ab.2 ≤ maxDuration) cycles →
  minDuration ≤ now - startTime t + ran cycles + c ≤ maxDuration →
  ∃ t',
    (perform_all (pause_cycles now cycles);;
     timerLoop_tick (now + ran cycles + paused cycles + c)) t =
      Ok (Some (now - startTime t + ran cycles + c)) t'
         (replicate (length cycles) go_timerLoop) ∧
    tState t' = Running ∧
    startTime t' = startTime t + paused cycles ∧
    elapsed t' = now - startTime t + ran cycles + c.
Proof.
  intros Hs Hb Hr.
  destruct (pause_cycles_run cycles t now Hs Hb)
    as (t1 & Hrun & Hs1 & Hst & _ & _).
  run_M. rewrite Hrun.
  rewrite timerLoop_tick_running by done. cbn.
  rewrite Hst, Sub_exact by lia.
  replace (now + ran cycles + paused cycles + c -
           (startTime t + paused cycles))
    with (now - startTime t + ran cycles + c) by lia.
  eexists. split; [by rewrite app_nil_r|]. cbn. done.
Qed.

Lemma pauses_are_never_counted_witness :
  ∃ t',
    (perform_all (pause_cycles 100 [(300, 500); (40, 60)]);;
     timerLoop_tick (100 + ran [(300, 500); (40, 60)]
                     + paused [(300, 500); (40, 60)] + 20))
      running_example =
      Ok (Some (100 - startTime running_example
                + ran [(300, 500); (40, 60)] + 20)) t'
         (replicate (length [(300, 500); (40, 60)]) go_timerLoop) ∧
    tState t' = Running ∧
    startTime t' =
      startTime running_example + paused [(300, 500); (40, 60)] ∧
    elapsed t' =
      100 - startTime running_example + ran [(300, 500); (40, 60)] + 20.
Proof.
  apply (pauses_are_never_counted running_example 100
           [(300, 500); (40, 60)] 20).
  - reflexivity.
  - repeat constructor; cbn; unfold maxDuration; lia.
  - vm_compute. split; discriminate.
Defined.

(** ** The two revisions of timer.go *)

(** X16: in the states [checkValidState] accepts, each checked method
    returns the nil error and does what the unchecked method of the earlier
    revision does: the same timer, the same goroutines, the same panics. *)
Theorem checked_methods_agree_with_the_earlier_ones
    (t : Timer) (now : time.Time) :
  (tState t = Reset →
   StartTimer now t =
     match earlier.StartTimer now t with
     | Ok _ t' gs => Ok None t' gs
     | Panic => Panic
     end) ∧
  (tState t = Running ∨ tState t = Paused →
   StopTimer t =
     match earlier.StopTimer t with
     | Ok _ t' gs => Ok None t' gs
     | Panic => Panic
     end) ∧
  (tState t = Stopped →
   ResetTimer t =
     match earlier.ResetTimer t with
     | Ok _ t' gs => Ok None t' gs
     | Panic => Panic
     end) ∧
  (tState t = Running →
   PauseTimer now t =
     match earlier.PauseTimer now t with
     | Ok _ t' gs => Ok None t' gs
     | Panic => Panic
     end) ∧
  (tState t = Paused →
   ResumeTimer now t =
     match earlier.ResumeTimer now t with
     | Ok _ t' gs => Ok None t' gs
     | Panic => Panic
     end).
Proof.
  split; [|split; [|split; [|split]]].
  - intros Hs. unfold StartTimer, earlier.StartTimer, checkValidState,
      NewTicker. run_M. rewrite Hs. cbn.
    destruct (wrap64 (tickerInterval t * Millisecond) <=? 0); cbn; [done|].
    by destruct (wrap64 (updateInterval t * Millisecond) <=? 0).
  - intros Hs. unfold StopTimer, earlier.StopTimer, checkValidState,
      Ticker_Stop. run_M.
    destruct Hs as [-> | ->]; cbn;
      destruct (ticker t); cbn; try done;
      by destruct (updateTicker t).
  - intros Hs. by rewrite ResetTimer_valid.
  - intros Hs. by rewrite PauseTimer_valid.
  - intros Hs. by rewrite ResumeTimer_paused.
Qed.

Lemma checked_methods_agree_with_the_earlier_ones_witness :
  StopTimer running_example =
    match earlier.StopTimer running_example with
    | Ok _ t' gs => Ok None t' gs
    | Panic => Panic
    end ∧
  ResetTimer New =
    match earlier.ResetTimer New with
    | Ok _ t' gs => Ok None t' gs
    | Panic => Panic
    end.
Proof.
  split.
  - apply (checked_methods_agree_with_the_earlier_ones running_example 0).
    left. reflexivity.
  - apply (checked_methods_agree_with_the_earlier_ones New 0). reflexivity.
Defined.

(** X17: without the state check, [StopTimer] of the earlier revision
    panics exactly on a timer one of whose tickers is [nil], such as a
    timer fresh from [New] or reset; the checked [StopTimer] returns its
    error there and never panics on a timer built from [New]. *)
Theorem unchecked_StopTimer_panics_without_tickers (t : Timer) :
  (earlier.StopTimer t = Panic ↔ ticker t = None ∨ updateTicker t = None) ∧
  (tickers_ready t → StopTimer t ≠ Panic).
Proof.
  split.
  - unfold earlier.StopTimer, Ticker_Stop. run_M.
    destruct (ticker t); cbn; destruct (updateTicker t); cbn;
      split; intros H; try done; auto; destruct H; done.
  - intros Hw. destruct (StopTimer_returns t Hw) as (e & t' & -> & _).
    discriminate.
Qed.

Lemma unchecked_StopTimer_panics_without_tickers_witness :
  earlier.StopTimer New = Panic ∧ StopTimer New ≠ Panic.
Proof.
  split.
  - apply (proj1 (unchecked_StopTimer_panics_without_tickers New)).
    left. reflexivity.
  - apply (proj2 (unchecked_StopTimer_panics_without_tickers New)).
    intros [H | H]; discriminate H.
Defined.

(** ** The example program *)

(** X18: against the checked revision the example program receives
    nothing.  [New] returns a stopped timer, so [StartTimer] and
    [PauseTimer] return their errors (which [main] drops), [ResumeTimer]
    does nothing, no loop is spawned, and whatever turns a loop might take
    send no value: the timer is still the one [New] returned. *)
Theorem example_main_receives_nothing
    (n0 n1 n2 : time.Time) (ticks0 ticks1 ticks2 : list time.Time) :
  example_main n0 n1 n2 ticks0 ticks1 ticks2 =
    Ok (Some (Errorf "StartTimer called with invalid state" []),
        Some (Errorf "PauseTimer called with invalid state" []),
        None, [])
       New [].
Proof.
  unfold example_main. run_M.
  rewrite StartTimer_invalid by discriminate. cbn.
  rewrite timerLoop_not_running by discriminate. cbn.
  rewrite PauseTimer_invalid by discriminate. cbn.
  rewrite timerLoop_not_running by discriminate. cbn.
  rewrite ResumeTimer_not_paused by discriminate. cbn.
  rewrite timerLoop_not_running by discriminate. done.
Qed.

(** X19: against the earlier revision the example program works: the
    start succeeds on the stopped timer, the values received before the
    pause are the clock readings less the start, none is received during
    the pause, and the values after the resume are less the start moved by
    the time paused. *)
Theorem earlier_example_main_receives
    (n0 n1 n2 : time.Time) (ticks0 ticks1 ticks2 : list time.Time) :
  ∃ t',
    earlier.example_main n0 n1 n2 ticks0 ticks1 ticks2 =
      Ok (((λ now, Sub now n0) <$> ticks0)
          ++ ((λ now, Sub now (n0 + Sub n2 n1)) <$> ticks2))
         t' [go_startSubTimers; go_timerLoop; go_timerLoop] ∧
    tState t' = Running ∧ startTime t' = n0 + Sub n2 n1.
Proof.
  assert (Hstart : earlier.StartTimer n0 New =
            Ok tt (started n0 New) [go_startSubTimers; go_timerLoop])
    by reflexivity.
  unfold earlier.example_main. run_M. rewrite Hstart. cbn.
  destruct (timerLoop_running ticks0 (started n0 New) eq_refl)
    as (t1 & -> & Hs1 & Hst1 & _).
  cbn in Hst1. cbn.
  assert (Hpause : earlier.PauseTimer n1 t1 =
            Ok tt (set_pauseTime n1 (set_tState Paused t1)) [])
    by reflexivity.
  rewrite Hpause. cbn.
  rewrite (timerLoop_not_running ticks1) by done. cbn.
  assert (Hresume : earlier.ResumeTimer n2
                      (set_pauseTime n1 (set_tState Paused t1)) =
            Ok tt
               (set_tState Running
                  (set_startTime (startTime t1 + Sub n2 n1)
                     (set_pauseTime n1 (set_tState Paused t1))))
               [go_timerLoop])
    by reflexivity.
  rewrite Hresume. cbn.
  match goal with
  | |- context [timerLoop ticks2 ?t0] =>
      destruct (timerLoop_running ticks2 t0 eq_refl)
        as (t2 & -> & Hs2 & Hst2 & _)
  end.
  cbn in Hst2. cbn. rewrite Hst1 in *.
  exists t2. done.
Qed.

(** ** What [New] leaves switched off *)

(** X20: [New] sets none of the three switches and no method writes them,
    so on every timer built from [New] they are off: there
    [StopSubTimer] never stops the parent, whatever the subtimers'
    states. *)
Theorem timers_from_New_have_no_switch
    (cs : list call) (t : Timer) (gs : list goroutine) :
  perform_all cs New = Ok tt t gs →
  allowResumeAfterStop t = false ∧
  continueCountingWhenStopped t = false ∧
  stopOnSubtimersFinish t = false ∧
  (∀ id s, subtimers t !! id = Some s →
     StopSubTimer id t = Ok (elapsed t, None) (stopped_at id t) [] ∧
     tState (stopped_at id t) = tState t).
Proof.
  intros H. apply perform_all_steps in H.
  destruct (steps_switches New t H) as (Ha & Hc & Hf & _).
  cbn in Ha, Hc, Hf. repeat split; try done.
  by rewrite (StopSubTimer_known id t s), Hf.
Qed.

Lemma timers_from_New_have_no_switch_witness :
  allowResumeAfterStop retimed_example = false ∧
  continueCountingWhenStopped retimed_example = false ∧
  stopOnSubtimersFinish retimed_example = false ∧
  (∀ id s, subtimers retimed_example !! id = Some s →
     StopSubTimer id retimed_example =
       Ok (elapsed retimed_example, None) (stopped_at id retimed_example)
          [] ∧
     tState (stopped_at id retimed_example) = tState retimed_example).
Proof.
  apply (timers_from_New_have_no_switch retimed_calls retimed_example
           [go_startSubTimers; go_timerLoop]).
  vm_compute. reflexivity.
Defined.

(** ** Updates across a pause *)

(** X21: a running timer is sampled at [ticks0], paused at [p], resumed
    at [r] and sampled at [ticks2], the clock never going back from
    [startTime] on and staying within a [Duration] of it.  Both calls
    succeed; the values sent are the clock readings less [startTime]
    before the pause and, after it, less [startTime] and the time paused;
    taken together they never decrease: the first value after the resume
    is not below the last one before the pause. *)
Theorem updates_never_go_back_across_a_pause
    (t : Timer) (ticks0 ticks2 : list time.Time) (p r : time.Time) :
  tState t = Running →
  Sorted Z.le (startTime t :: ticks0 ++ p :: r :: ticks2) →
  Forall (λ now, now ≤ startTime t + maxDuration)
    (ticks0 ++ p :: r :: ticks2) →
  ∃ t',
    (vs0 ← timerLoop ticks0;
     e1 ← PauseTimer p;
     e2 ← ResumeTimer r;
     vs2 ← timerLoop ticks2;
     mret (e1, e2, vs0 ++ vs2)) t =
      Ok (None, None,
          ((λ now, now - startTime t) <$> ticks0)
          ++ ((λ now, now - startTime t - (r - p)) <$> ticks2))
         t' [go_timerLoop] ∧
    Sorted Z.le
      (((λ now, now - startTime t) <$> ticks0)
       ++ ((λ now, now - startTime t - (r - p)) <$> ticks2)).
Proof.
  intros Hs Hsorted Hbound.
  apply Sorted_StronglySorted in Hsorted; [|apply _].
  apply StronglySorted_cons in Hsorted as [Hge Hsorted].
  apply StronglySorted_app in Hsorted as (Hcross & Hs0 & Hs2).
  apply StronglySorted_cons in Hs2 as [Hp Hs2].
  apply StronglySorted_cons in Hs2 as [Hr Hs2].
  rewrite Forall_forall in Hge, Hbound, Hp, Hr.
  assert (Hpr : p ≤ r) by (apply Hp; set_solver).
  assert (Hsp : startTime t ≤ p) by (apply Hge; set_solver).
  assert (Hrb : r ≤ startTime t + maxDuration)
    by (apply Hbound; set_solver).
  assert (H0 : (λ now, Sub now (startTime t)) <$> ticks0 =
               (λ now, now - startTime t) <$> ticks0).
  { apply Forall_fmap_ext_1, Forall_forall. intros a Ha.
    assert (startTime t ≤ a) by (apply Hge; set_solver).
    assert (a ≤ startTime t + maxDuration) by (apply Hbound; set_solver).
    apply Sub_exact. unfold minDuration, maxDuration in *. lia. }
  assert (H2 : (λ now, Sub now (startTime t + (r - p))) <$> ticks2 =
               (λ now, now - startTime t - (r - p)) <$> ticks2).
  { apply Forall_fmap_ext_1, Forall_forall. intros b Hb.
    assert (r ≤ b) by (by apply Hr).
    assert (b ≤ startTime t + maxDuration) by (apply Hbound; set_solver).
    rewrite Sub_exact by (unfold minDuration, maxDuration in *; lia).
    lia. }
  run_M.
  destruct (timerLoop_running ticks0 t Hs) as (t1 & -> & Hs1 & Hst1 & _).
  cbn. rewrite PauseTimer_valid by done. cbn.
  rewrite ResumeTimer_paused by done. cbn.
  match goal with
  | |- context [timerLoop ticks2 ?t0] =>
      destruct (timerLoop_running ticks2 t0 eq_refl)
        as (t2 & -> & Hs2' & Hst2 & _)
  end.
  cbn. unfold Add, Since. rewrite Hst1.
  rewrite (Sub_exact r p) by (unfold minDuration, maxDuration in *; lia).
  rewrite H0, H2.
  eexists. split; [by rewrite ?app_nil_r|].
  apply StronglySorted_Sorted, StronglySorted_app_2.
  - intros x1 x2 (a & -> & Ha)%list_elem_of_fmap
      (b & -> & Hb)%list_elem_of_fmap.
    assert (a ≤ p) by (apply (Hcross a p); set_solver).
    assert (r ≤ b) by (by apply Hr).
    lia.
  - eapply StronglySorted_fmap; [|exact Hs0].
    intros x y Hxy. lia.
  - eapply StronglySorted_fmap; [|exact Hs2].
    intros x y Hxy. lia.
Qed.

Lemma updates_never_go_back_across_a_pause_witness :
  ∃ t',
    (vs0 ← timerLoop [10000000; 20000000];
     e1 ← PauseTimer 25000000;
     e2 ← ResumeTimer 95000000;
     vs2 ← timerLoop [100000000; 110000000];
     mret (e1, e2, vs0 ++ vs2)) running_example =
      Ok (None, None, [10000000; 20000000; 30000000; 40000000])
         t' [go_timerLoop] ∧
    Sorted Z.le [10000000; 20000000; 30000000; 40000000].
Proof.
  apply (updates_never_go_back_across_a_pause running_example
           [10000000; 20000000] [100000000; 110000000] 25000000 95000000).
  - reflexivity.
  - cbn. repeat constructor; lia.
  - cbn. repeat constructor; unfold maxDuration; lia.
Defined.

(** ** A stop before the goroutine's turn *)

Lemma StopSubTimer_returns (t : Timer) (id : Z) (s : subtimer) :
  subtimers t !! id = Some s → tickers_ready t →
  ∃ t', StopSubTimer id t = Ok (elapsed t, None) t' [] ∧
        subtimers t' = subtimers (stopped_at id t).
Proof.
  intros Hid Hw. rewrite (StopSubTimer_known id t s Hid).
  assert (Hw1 : tickers_ready (stopped_at id t)) by done.
  destruct (StopTimer_returns _ Hw1) as (e & t1 & -> & Hm & _).
  destruct (stopOnSubtimersFinish t); cbn; [|by eexists].
  unfold checkSubTimerFinish. run_M.
  destruct (forallb _ _); by eexists.
Qed.

(** X22: [StartTimer] itself leaves the subtimers as they are; it is the
    goroutine it spawns that sets them running.  A [StopSubTimer] that
    comes between the two is undone: after the goroutine's turn the
    subtimer is [Running] again, keeping the time of the stop. *)
Theorem stop_before_the_goroutine_is_undone
    (t : Timer) (now : time.Time) (id : Z) (s : subtimer) :
  tState t = Reset →
  0 < wrap64 (tickerInterval t * Millisecond) →
  0 < wrap64 (updateInterval t * Millisecond) →
  subtimers t !! id = Some s →
  ∃ t',
    (e ← StartTimer now;
     r ← StopSubTimer id;
     startSubTimers;;
     mret (e, r)) t =
      Ok (None, (elapsed t, None)) t' [go_startSubTimers; go_timerLoop] ∧
    subtimers t' !! id = Some (mkSubtimer (elapsed t) Running).
Proof.
  intros Hs Hk Hu Hid. run_M. rewrite StartTimer_valid by done. cbn.
  match goal with
  | |- context [StopSubTimer id ?t1] =>
      assert (Hw : tickers_ready t1) by (intros _; cbn; eauto);
      destruct (StopSubTimer_returns t1 id s Hid Hw) as (t2 & -> & Hm)
  end.
  cbn. rewrite startSubTimers_eq. cbn.
  eexists. split; [done|]. cbn.
  rewrite lookup_fmap, Hm. cbn. by rewrite lookup_insert_eq.
Qed.

Lemma stop_before_the_goroutine_is_undone_witness :
  ∃ t',
    (e ← StartTimer 0;
     r ← StopSubTimer 1;
     startSubTimers;;
     mret (e, r)) (two_subtimers Reset Reset Reset false) =
      Ok (None, (40000000, None)) t' [go_startSubTimers; go_timerLoop] ∧
    subtimers t' !! 1 = Some (mkSubtimer 40000000 Running).
Proof.
  apply (stop_before_the_goroutine_is_undone
           (two_subtimers Reset Reset Reset false) 0 1 (mkSubtimer 0 Reset));
    reflexivity.
Defined.
